(** * MountainHub.py: snow observations and elevation look-ups

    A shallow embedding of [validation/MountainHub.py] and the properties its
    specification states about it.

    Conventions of the embedding.
    - Python values that travel through the module (decoded JSON bodies,
      request parameters, coordinates) are terms of [pyval]; [PObject] stands
      for any other object (a function, an imported module).  A Python
      [float] is idealised as a rational number ([Q]); not-a-number and the
      infinities are not represented.  A [dict] decoded from JSON is an
      association list in insertion order, looked up from the front; the flat
      parameter dictionaries handed to [requests.get] are [gmap]s.
    - A raised exception is the [Raise] branch of [result]; the exception
      classes are those of CPython.
    - What the interpreter and the operating system provide is a class each:
      [Numerals] (the numeral syntax of [float()] and [int()]), [Printing]
      ([str()] and ['%.4f' %]) and [Clock] ([time.mktime] and [localtime]).
      The answers of the two remote services are a function [http] of the
      number of requests already issued and of the request.
*)

From Stdlib Require Import ZArith QArith Qround Ascii String List Lia.
From stdpp Require Import base gmap strings.
Import ListNotations.
Set Warnings "-register-all".
Local Open Scope string_scope.
Local Open Scope list_scope.
Local Open Scope Z_scope.

(** ** Python values and exceptions *)

Inductive pyval :=
| PNone
| PBool (b : bool)
| PInt (z : Z)
| PFloat (q : Q)
| PStr (s : string)
| PList (l : list pyval)
| PDict (d : list (string * pyval))
| PObject (name : string).

Inductive exn :=
| NameError (name : string)
| KeyError (key : pyval)
| IndexError
| TypeError
| AttributeError (attr : string)
| ValueError (arg : pyval)
| ZeroDivisionError
| OverflowError.

Inductive result (A : Type) :=
| Raise (e : exn)
| Ok (x : A).
Arguments Raise {A} e.
Arguments Ok {A} x.

#[global] Instance result_ret : MRet result := λ A x, Ok x.
#[global] Instance result_bind : MBind result :=
  λ A B f m, match m with Raise e => Raise e | Ok x => f x end.

#[global] Instance result_fmap : FMap result :=
  λ A B f m, match m with Raise e => Raise e | Ok x => Ok (f x) end.

Definition raised {A} (m : result A) : bool :=
  match m with Raise _ => true | Ok _ => false end.

(** ** Built-in operations on values *)

(** [bool(v)], the truth value used by [or]. *)
Definition truthy (v : pyval) : bool :=
  match v with
  | PNone => false
  | PBool b => b
  | PInt z => negb (z =? 0)
  | PFloat q => negb (Qnum q =? 0)
  | PStr s => negb (String.eqb s "")
  | PList l => match l with [] => false | _ => true end
  | PDict d => match d with [] => false | _ => true end
  | PObject _ => true
  end.

Definition is_none (v : pyval) : bool :=
  match v with PNone => true | _ => false end.

Fixpoint dict_lookup (d : list (string * pyval)) (k : string) : option pyval :=
  match d with
  | [] => None
  | (k', v) :: d' => if String.eqb k' k then Some v else dict_lookup d' k
  end.

(** [v[k]] for a string key [k]. *)
Definition getitem_key (v : pyval) (k : string) : result pyval :=
  match v with
  | PDict d =>
      match dict_lookup d k with
      | Some x => Ok x
      | None => Raise (KeyError (PStr k))
      end
  | _ => Raise TypeError
  end.

(** [v.get(k, default)]; only a [dict] has the method. *)
Definition method_get (v : pyval) (k : string) (default : pyval) :
    result pyval :=
  match v with
  | PDict d =>
      match dict_lookup d k with
      | Some x => Ok x
      | None => Ok default
      end
  | _ => Raise (AttributeError "get")
  end.

(** The one-character strings of a string, as iteration and indexing see it. *)
Fixpoint chars (s : string) : list pyval :=
  match s with
  | EmptyString => []
  | String c s' => PStr (String c EmptyString) :: chars s'
  end.

(** [l[i]] on a sequence of length [length l]; a negative index counts from
    the end. *)
Definition seq_index (l : list pyval) (i : Z) : result pyval :=
  let n := Z.of_nat (length l) in
  let j := if i <? 0 then i + n else i in
  if (j <? 0) || (n <=? j) then Raise IndexError
  else match nth_error l (Z.to_nat j) with
       | Some x => Ok x
       | None => Raise IndexError
       end.

(** [v[i]] for an integer index [i]. *)
Definition getitem_index (v : pyval) (i : Z) : result pyval :=
  match v with
  | PList l => seq_index l i
  | PStr s => seq_index (chars s) i
  | PDict _ => Raise (KeyError (PInt i))
  | _ => Raise TypeError
  end.

(** [len(v)]. *)
Definition len (v : pyval) : result Z :=
  match v with
  | PList l => Ok (Z.of_nat (length l))
  | PStr s => Ok (Z.of_nat (String.length s))
  | PDict d => Ok (Z.of_nat (length d))
  | _ => Raise TypeError
  end.

(** The elements [list.extend] and [for] draw from an iterable. *)
Definition iterate (v : pyval) : result (list pyval) :=
  match v with
  | PList l => Ok l
  | PStr s => Ok (chars s)
  | PDict d => Ok (map (λ kv, PStr kv.1) d)
  | _ => Raise TypeError
  end.

Definition is_str (k : string) (v : pyval) : bool :=
  match v with PStr s => String.eqb s k | _ => false end.

Fixpoint is_substring (k s : string) : bool :=
  String.prefix k s ||
  match s with
  | EmptyString => false
  | String _ s' => is_substring k s'
  end.

(** [k in v] for a string [k]: a key of a dict, an element of a list, a
    substring of a string. *)
Definition contains (k : string) (v : pyval) : result bool :=
  match v with
  | PDict d => Ok (match dict_lookup d k with Some _ => true | None => false end)
  | PList l => Ok (existsb (is_str k) l)
  | PStr s => Ok (is_substring k s)
  | _ => Raise TypeError
  end.

(** ** Numbers *)

Inductive num :=
| NInt (z : Z)
| NFloat (q : Q).

Definition as_num (v : pyval) : result num :=
  match v with
  | PBool b => Ok (NInt (if b then 1 else 0))
  | PInt z => Ok (NInt z)
  | PFloat q => Ok (NFloat q)
  | _ => Raise TypeError
  end.

Definition of_num (n : num) : pyval :=
  match n with NInt z => PInt z | NFloat q => PFloat q end.

Definition num_Q (n : num) : Q :=
  match n with NInt z => inject_Z z | NFloat q => q end.

Definition num_is_zero (n : num) : bool :=
  match n with NInt z => z =? 0 | NFloat q => Qnum q =? 0 end.

Definition num_add (a b : num) : num :=
  match a, b with
  | NInt x, NInt y => NInt (x + y)
  | _, _ => NFloat (Qred (num_Q a + num_Q b))
  end.

Definition num_sub (a b : num) : num :=
  match a, b with
  | NInt x, NInt y => NInt (x - y)
  | _, _ => NFloat (Qred (num_Q a - num_Q b))
  end.

Definition num_mul (a b : num) : num :=
  match a, b with
  | NInt x, NInt y => NInt (x * y)
  | _, _ => NFloat (Qred (num_Q a * num_Q b))
  end.

(** True division [a / b]: always a float, [ZeroDivisionError] on a zero
    divisor of either kind. *)
Definition num_truediv (a b : num) : result num :=
  if num_is_zero b then Raise ZeroDivisionError
  else Ok (NFloat (Qred (num_Q a / num_Q b))).

Definition num_ltb (a b : num) : bool :=
  match Qcompare (num_Q a) (num_Q b) with Lt => true | _ => false end.

Definition py_add (a b : pyval) : result pyval :=
  x ← as_num a; y ← as_num b; mret (of_num (num_add x y)).

Definition py_sub (a b : pyval) : result pyval :=
  x ← as_num a; y ← as_num b; mret (of_num (num_sub x y)).

Definition py_mul (a b : pyval) : result pyval :=
  x ← as_num a; y ← as_num b; mret (of_num (num_mul x y)).

Definition py_truediv (a b : pyval) : result pyval :=
  x ← as_num a; y ← as_num b; of_num <$> num_truediv x y.

Definition py_lt (a b : pyval) : result bool :=
  x ← as_num a; y ← as_num b; mret (num_ltb x y).

(** [float(v)] and [int(v)].  The numeral syntax the interpreter accepts in a
    string is the host's. *)
Class Numerals := {
  float_of_string : string → option Q;
  int_of_string : string → option Z
}.

Definition py_float {numerals : Numerals} (v : pyval) : result Q :=
  match v with
  | PBool b => Ok (if b then 1%Q else 0%Q)
  | PInt z => Ok (inject_Z z)
  | PFloat q => Ok q
  | PStr s =>
      match float_of_string s with
      | Some q => Ok q
      | None => Raise (ValueError (PStr "could not convert string to float"))
      end
  | _ => Raise TypeError
  end.

Definition py_int {numerals : Numerals} (v : pyval) : result Z :=
  match v with
  | PBool b => Ok (if b then 1 else 0)
  | PInt z => Ok z
  | PFloat q => Ok (Z.quot (Qnum q) (Z.pos (Qden q)))
  | PStr s =>
      match int_of_string s with
      | Some z => Ok z
      | None => Raise (ValueError (PStr "invalid literal for int() with base 10"))
      end
  | _ => Raise TypeError
  end.

(** ** Calendar time *)

(** A naive [datetime.datetime]. *)
Record datetime := {
  year : Z; month : Z; day : Z;
  hour : Z; minute : Z; second : Z;
  microsecond : Z
}.

(** The fields of a [time.struct_time] that [time.mktime] reads and
    [datetime.fromtimestamp] uses.  [timetuple()] of a naive datetime sets
    [tm_isdst] to -1 (unknown), which is why that field carries nothing. *)
Record struct_time := {
  tm_year : Z; tm_mon : Z; tm_mday : Z;
  tm_hour : Z; tm_min : Z; tm_sec : Z
}.

(** The clock of the host: [time.mktime] (local broken-down time to epoch
    seconds; the float it returns is integral) and the C library's
    [localtime] (epoch seconds to local broken-down time). *)
Class Clock := {
  mktime : struct_time → result Z;
  localtime : Z → result struct_time
}.

(** [date.timetuple()]: the microsecond is not part of a time tuple. *)
Definition timetuple (date : datetime) : struct_time :=
  {| tm_year := year date; tm_mon := month date; tm_mday := day date;
     tm_hour := hour date; tm_min := minute date; tm_sec := second date |}.

(** The date with its sub-second part dropped. *)
Definition whole_seconds (date : datetime) : datetime :=
  {| year := year date; month := month date; day := day date;
     hour := hour date; minute := minute date; second := second date;
     microsecond := 0 |}.

(** Rounding to the nearest integer, ties to even. *)
Definition round_half_even (x : Q) : Z :=
  let f := Qfloor x in
  match Qcompare (x - inject_Z f) (1 # 2) with
  | Lt => f
  | Gt => f + 1
  | Eq => if Z.even f then f else f + 1
  end.

(** [datetime.fromtimestamp(x)]: [x] is rounded to microseconds, the whole
    seconds go through [localtime], a leap second is clamped to 59. *)
Definition fromtimestamp {clock : Clock} (x : Q) : result datetime :=
  let us := round_half_even (x * inject_Z 1000000) in
  tm ← localtime (us / 1000000);
  mret {| year := tm_year tm; month := tm_mon tm; day := tm_mday tm;
          hour := tm_hour tm; minute := tm_min tm;
          second := Z.min 59 (tm_sec tm);
          microsecond := us mod 1000000 |}.

Definition dateToTimestamp {clock : Clock} (date : option datetime) :
    result (option Z) :=
  match date with
  | None => Ok None
  | Some d => s ← mktime (timetuple d); mret (Some (s * 1000))
  end.

Definition timestampToDate {clock : Clock} (timestamp : option Z) :
    result (option datetime) :=
  match timestamp with
  | None => Ok None
  | Some t => Some <$> fromtimestamp (t # 1000)
  end.

(** ** Module-level names *)

Definition BASE_URL : string := "https://api.mountainhub.com/timeline".
Definition BASE_ELEVATION_URL : string :=
  "https://maps.googleapis.com/maps/api/elevation/json".
Definition HEADER : list (string * pyval) := [("Accept-version", PStr "1")].

(** Every name the module binds at top level, in the order of the file. *)
Definition module_globals : list (string * pyval) :=
  [ ("datetime", PObject "datetime"); ("time", PObject "time");
    ("pd", PObject "pandas"); ("requests", PObject "requests");
    ("config", PObject "config");
    ("BASE_URL", PStr BASE_URL);
    ("BASE_ELEVATION_URL", PStr BASE_ELEVATION_URL);
    ("HEADER", PDict HEADER);
    ("batches", PObject "batches"); ("intervals", PObject "intervals");
    ("removeEmptyParams", PObject "removeEmptyParams");
    ("dateToTimestamp", PObject "dateToTimestamp");
    ("timestampToDate", PObject "timestampToDate");
    ("make_box", PObject "make_box"); ("parse_snow", PObject "parse_snow");
    ("parse_elevation", PObject "parse_elevation");
    ("snow_data", PObject "snow_data"); ("el_data", PObject "el_data");
    ("average_elevation", PObject "average_elevation");
    ("merge_el_data", PObject "merge_el_data") ].

(** The functions of the [builtins] module. *)
Definition builtin_functions : list string :=
  [ "abs"; "aiter"; "all"; "anext"; "any"; "ascii"; "bin"; "bool";
    "breakpoint"; "bytearray"; "bytes"; "callable"; "chr"; "classmethod";
    "compile"; "complex"; "delattr"; "dict"; "dir"; "divmod"; "enumerate";
    "eval"; "exec"; "filter"; "float"; "format"; "frozenset"; "getattr";
    "globals"; "hasattr"; "hash"; "help"; "hex"; "id"; "input"; "int";
    "isinstance"; "issubclass"; "iter"; "len"; "list"; "locals"; "map";
    "max"; "memoryview"; "min"; "next"; "object"; "oct"; "open"; "ord";
    "pow"; "print"; "property"; "range"; "repr"; "reversed"; "round"; "set";
    "setattr"; "slice"; "sorted"; "staticmethod"; "str"; "sum"; "super";
    "tuple"; "type"; "vars"; "zip"; "__import__" ].

(** Reading a name inside a function body: the function's local names (its
    parameters and the names it assigns), then the module's globals, then the
    built-ins; a name bound nowhere raises [NameError]. *)
Definition load_name (locals : list (string * pyval)) (name : string) :
    result pyval :=
  match dict_lookup locals name with
  | Some v => Ok v
  | None =>
      match dict_lookup module_globals name with
      | Some v => Ok v
      | None =>
          if existsb (String.eqb name) builtin_functions then Ok (PObject name)
          else Raise (NameError name)
      end
  end.

(** ** Batches and intervals *)

(** [range(0, n, step)] for a positive [step]. *)
Definition range_step (n step : nat) : list nat :=
  map (λ k, k * step)%nat (seq 0 ((n + step - 1) / step)).

(** The slice [lst[i:j]]. *)
Definition slice {A} (lst : list A) (i j : nat) : list A :=
  firstn (j - i) (skipn i lst).

(** [batches(list, size)]: [range] refuses a zero step and is empty for a
    negative one. *)
Definition batches {A} (lst : list A) (size : Z) : result (list (list A)) :=
  if size =? 0 then Raise (ValueError (PStr "range() arg 3 must not be zero"))
  else if size <? 0 then Ok []
  else Ok (map (λ i, slice lst i (i + Z.to_nat size))
               (range_step (length lst) (Z.to_nat size))).

(** A generator is the list of what its successive [next] calls do: yield a
    value, or raise, which ends it. *)
Definition generator (A : Type) := list (result A).

(** The loop of [intervals], entered with the local [stop] at [stop] and
    [stops] standing for whatever the name [stops] is bound to. *)
Fixpoint intervals_loop (fuel : nat) (start end_ stops stop : pyval) :
    generator pyval :=
  match fuel with
  | O => []
  | S fuel' =>
      match py_lt stop stops with
      | Raise e => [Raise e]
      | Ok false => []
      | Ok true =>
          match (d ← py_sub end_ start; p ← py_mul stop d;
                 n ← py_sub stops (PInt 1); q ← py_truediv p n;
                 py_add start q) with
          | Raise e => [Raise e]
          | Ok v =>
              Ok v ::
              match py_add stop (PInt 1) with
              | Raise e => [Raise e]
              | Ok stop' => intervals_loop fuel' start end_ stops stop'
              end
          end
      end
  end.

(** The number of times the loop test can succeed when [stop] starts at 0. *)
Definition loop_bound (stops : pyval) : nat :=
  match as_num stops with
  | Ok n => Z.to_nat (Qceiling (num_Q n))
  | Raise _ => 0
  end.

(** [intervals(start, end, intervals)].  The body reads the name [stops],
    which is neither a parameter nor assigned in the body. *)
Definition intervals (start end_ intervals : pyval) : generator pyval :=
  let locals := [("start", start); ("end", end_); ("intervals", intervals);
                 ("stop", PInt 0)] in
  match load_name locals "stops" with
  | Raise e => [Raise e]
  | Ok stops => intervals_loop (S (loop_bound stops)) start end_ stops (PInt 0)
  end.

(** The value the loop yields at step [k] of [n] between [a] and [b]. *)
Definition lattice_value (a b : num) (n k : Z) : result pyval :=
  q ← num_truediv (num_mul (NInt k) (num_sub b a)) (num_sub (NInt n) (NInt 1));
  mret (of_num (num_add a q)).

(** ** Request parameters *)

#[global] Instance is_PNone_dec (v : pyval) : Decision (v = PNone).
Proof. destruct v; (left; reflexivity) || (right; discriminate). Defined.

Definition removeEmptyParams (dict : gmap string pyval) : gmap string pyval :=
  filter (λ kv, kv.2 ≠ PNone) dict.

Definition make_box (box : pyval) : result (gmap string pyval) :=
  if is_none box then Ok ∅
  else
    ymax ← getitem_key box "ymax";
    xmax ← getitem_key box "xmax";
    ymin ← getitem_key box "ymin";
    xmin ← getitem_key box "xmin";
    mret (<["north_east_lat" := ymax]>
          (<["north_east_lng" := xmax]>
           (<["south_west_lat" := ymin]>
            (<["south_west_lng" := xmin]> ∅)))).

(** ** Parsers *)

Module Snow.
(** The dictionary [parse_snow] returns, one field per key. *)
Record row := {
  author_name : pyval;
  id : pyval;
  timestamp : Z;
  date : option datetime;
  lat : pyval;
  long : pyval;
  type : pyval;
  snow_depth : option Q
}.

(** A row [dropna] removes: one with a missing value in some column. *)
Definition has_null (r : row) : bool :=
  is_none (author_name r) || is_none (id r) ||
  match date r with None => true | Some _ => false end ||
  is_none (lat r) || is_none (long r) || is_none (type r) ||
  match snow_depth r with None => true | Some _ => false end.
End Snow.

Module Elevation.
(** The dictionary [parse_elevation] returns. *)
Record fields := { elevation : pyval }.

(** A row of the table of [el_data]: the point and the parsed fields. *)
Record row := { lat : pyval; long : pyval; parsed : fields }.
End Elevation.

(** The first assignments of [parse_snow]: [snow_depth] before coercion. *)
Definition raw_snow_depth (obs : pyval) : result pyval :=
  details ← method_get obs "details" (PList [PDict []]);
  n ← len details;
  if 0 <? n then
    first ← getitem_index details 0;
    if negb (is_none first) then
      first' ← getitem_index details 0;
      method_get first' "snowpack_depth" PNone
    else Ok PNone
  else Ok PNone.

(** The entry ['snow_depth'] of the returned dictionary. *)
Definition coerce_snow_depth {numerals : Numerals} (snow_depth : pyval) :
    result (option Q) :=
  if negb (is_none snow_depth) && negb (is_str "undefined" snow_depth)
  then Some <$> py_float snow_depth
  else Ok None.

(** The entry ['author_name']: [a or b] is [a] when [a] is true, else [b]. *)
Definition author_of (actor : pyval) : result pyval :=
  full_name ← method_get actor "full_name" PNone;
  if truthy full_name then Ok full_name
  else method_get actor "fullName" PNone.

Definition parse_snow {numerals : Numerals} {clock : Clock} (record : pyval) :
    result Snow.row :=
  obs ← getitem_key record "observation";
  actor ← getitem_key record "actor";
  snow_depth ← raw_snow_depth obs;
  author ← author_of actor;
  id ← getitem_key obs "_id";
  reported ← getitem_key obs "reported_at";
  timestamp ← py_int reported;
  reported' ← getitem_key obs "reported_at";
  timestamp' ← py_int reported';
  date ← timestampToDate (Some timestamp');
  location ← getitem_key obs "location";
  lat ← getitem_index location 1;
  location' ← getitem_key obs "location";
  long ← getitem_index location' 0;
  type ← getitem_key obs "type";
  depth ← coerce_snow_depth snow_depth;
  mret {| Snow.author_name := author; Snow.id := id;
          Snow.timestamp := timestamp; Snow.date := date;
          Snow.lat := lat; Snow.long := long; Snow.type := type;
          Snow.snow_depth := depth |}.

Definition parse_elevation (record : pyval) : result Elevation.fields :=
  e ← getitem_key record "elevation";
  mret {| Elevation.elevation := e |}.

(** ** The network *)

Record request := {
  url : string;
  params : gmap string pyval;
  headers : list (string * pyval)
}.

(** A computation that may issue requests: it receives the requests issued so
    far and returns them extended, with its outcome. *)
Definition io (A : Type) : Type := list request → result A * list request.

#[global] Instance io_ret : MRet io := λ A x w, (Ok x, w).
#[global] Instance io_bind : MBind io :=
  λ A B f m w,
    match m w with
    | (Raise e, w') => (Raise e, w')
    | (Ok x, w') => f x w'
    end.

(** A step that issues no request. *)
Definition pure {A} (m : result A) : io A := λ w, (m, w).

(** [for x in xs: acc = body(acc, x)], stopping at the first exception. *)
Fixpoint for_each {A B} (xs : list A) (body : B → A → io B) (acc : B) :
    io B :=
  match xs with
  | [] => mret acc
  | x :: xs' => acc' ← body acc x; for_each xs' body acc'
  end.

(** The same loop over a generator, whose [next] may raise. *)
Fixpoint for_gen {A B} (g : generator A) (body : B → A → io B) (acc : B) :
    io B :=
  match g with
  | [] => mret acc
  | Raise e :: _ => pure (Raise e)
  | Ok x :: g' => acc' ← body acc x; for_gen g' body acc'
  end.

(** [[f(x) for x in xs]], stopping at the first exception. *)
Fixpoint comprehension {A B} (f : A → result B) (xs : list A) :
    result (list B) :=
  match xs with
  | [] => Ok []
  | x :: xs' => y ← f x; ys ← comprehension f xs'; mret (y :: ys)
  end.

(** ** Retrieval *)

(** [str(x)] and ['%.4f' % x], which print a number as the interpreter does. *)
Class Printing := {
  str : pyval → string;
  format_4f : pyval → result string
}.

(** The key the external [config] module supplies. *)
Class Config := { GOOGLE_API_KEY : pyval }.

(** The remote services: the decoded JSON body answered to the [n]-th request
    of a call (counted from 0). *)
Class Network := { http : nat → request → pyval }.

Section retrieval.
Context {numerals : Numerals} {printing : Printing} {clock : Clock}
  {config : Config} {network : Network}.

(** [requests.get(url, params=params, headers=headers).json()]. *)
Definition requests_get (url : string) (params : gmap string pyval)
    (headers : list (string * pyval)) : io pyval :=
  λ w,
    let r := {| url := url; params := params; headers := headers |} in
    (Ok (http (length w) r), w ++ [r]).

Definition opt_int (o : option Z) : pyval :=
  match o with None => PNone | Some z => PInt z end.

(** The check both retrieval functions make on a decoded body. *)
Definition results_of (data : pyval) : result pyval :=
  has ← contains "results" data;
  if negb has then Raise (ValueError data)
  else getitem_key data "results".

(** The dictionary literal of [snow_data], filtered. *)
Definition snow_params (limit : pyval) (since before : option Z)
    (corners : gmap string pyval) : gmap string pyval :=
  removeEmptyParams
    (corners ∪
     <["before" := opt_int before]>
      (<["since" := opt_int since]>
       (<["limit" := limit]>
        (<["obs_type" := PStr "snow_conditions"]>
         (<["publisher" := PStr "all"]> ∅))))).

Definition snow_data (limit : pyval) (start end_ : option datetime)
    (box : pyval) (filter : bool) : io (list Snow.row) :=
  since ← pure (dateToTimestamp start);
  before ← pure (dateToTimestamp end_);
  corners ← pure (make_box box);
  let params := snow_params limit since before corners in
  data ← requests_get BASE_URL params HEADER;
  records ← pure (results_of data);
  items ← pure (iterate records);
  parsed ← pure (comprehension parse_snow items);
  let df := parsed in
  mret (if filter then List.filter (λ r, negb (Snow.has_null r)) df else df).

(** The [locations] string of [el_data] for a list of points. *)
Definition locations (points : list (pyval * pyval)) : string :=
  String.concat "|"
    (map (λ point, String.concat "," [str point.1; str point.2]) points).

(** The dictionary literal inside the loop of [el_data]. *)
Definition el_params (points : list (pyval * pyval)) : gmap string pyval :=
  <["key" := GOOGLE_API_KEY]> (<["locations" := PStr (locations points)]> ∅).

(** The body of the loop of [el_data] for one [batch]. *)
Definition el_request (points : list (pyval * pyval))
    (records : list pyval) (batch : list (pyval * pyval)) : io (list pyval) :=
  let params := el_params points in
  data ← requests_get BASE_ELEVATION_URL params [];
  results ← pure (results_of data);
  items ← pure (iterate results);
  mret (records ++ items).

Definition el_data (points : list (pyval * pyval)) : io (list Elevation.row) :=
  bs ← pure (batches points 256);
  records ← for_each bs (el_request points) [];
  pure (comprehension
          (λ pr : (pyval * pyval) * pyval,
             fields ← parse_elevation pr.2;
                 mret {| Elevation.lat := pr.1.1; Elevation.long := pr.1.2;
                         Elevation.parsed := fields |})
          (zip points records)).

(** [min(grid_size, 16)]: the second argument wins only when it is smaller. *)
Definition py_min (a b : pyval) : result pyval :=
  smaller ← py_lt b a; mret (if smaller : bool then b else a).

(** [sum(xs)], which starts from the integer 0. *)
Definition py_sum (xs : list pyval) : result pyval :=
  fold_left (λ acc x, a ← acc; py_add a x) xs (Ok (PInt 0)).

(** The last lines of [average_elevation], from the decoded body on. *)
Definition mean_elevation (data : pyval) : result pyval :=
  records ← results_of data;
  items ← iterate records;
  elevations ← comprehension (λ record, getitem_key record "elevation") items;
  total ← py_sum elevations;
  py_truediv total (PInt (Z.of_nat (length elevations))).

(** The two nested loops of [average_elevation]. *)
Definition grid (box grid_size : pyval) : io (list (pyval * pyval)) :=
  ymin ← pure (getitem_key box "ymin");
  ymax ← pure (getitem_key box "ymax");
  for_gen (intervals ymin ymax grid_size)
    (λ points lat,
       xmin ← pure (getitem_key box "xmin");
       xmax ← pure (getitem_key box "xmax");
       for_gen (intervals xmin xmax grid_size)
         (λ points long, mret (points ++ [(lat, long)])) points)
    [].

Definition average_elevation (box grid_size : pyval) : io pyval :=
  grid_size ← pure (py_min grid_size (PInt 16));
  points ← grid box grid_size;
  coords ← pure (comprehension
                   (λ point : pyval * pyval,
                      a ← format_4f point.1; b ← format_4f point.2;
                      mret (String.concat "," [a; b]))
                   points);
  let params :=
    <["key" := GOOGLE_API_KEY]>
      (<["locations" := PStr (String.concat "|" coords)]> ∅) in
  data ← requests_get BASE_ELEVATION_URL params [];
  pure (mean_elevation data).

(** The request [snow_data] issues, and the one [el_data] issues in each
    round of its loop. *)
Definition timeline_request (limit : pyval) (since before : option Z)
    (corners : gmap string pyval) : request :=
  {| url := BASE_URL; params := snow_params limit since before corners;
     headers := HEADER |}.

Definition elevation_request (points : list (pyval * pyval)) : request :=
  {| url := BASE_ELEVATION_URL; params := el_params points; headers := [] |}.

(** The number of batches of 256 in a list of [n] points. *)
Definition rounds (n : nat) : nat := ((n + 256 - 1) / 256)%nat.

(** A call starts with no request issued. *)
Definition run {A} (m : io A) : result A * list request := m [].
End retrieval.

(** ** Notions used to state further properties *)

(** The keys [make_box] produces. *)
Definition box_keys : list string :=
  ["north_east_lat"; "north_east_lng"; "south_west_lat"; "south_west_lng"].

(** What is left of a value after [removeEmptyParams]. *)
Definition unless_none (v : pyval) : option pyval :=
  if is_none v then None else Some v.

(** The row of [el_data] for a point and an elevation. *)
Definition elevation_row (point : pyval * pyval) (e : pyval) : Elevation.row :=
  {| Elevation.lat := point.1; Elevation.long := point.2;
     Elevation.parsed := {| Elevation.elevation := e |} |}.


(** ** A host to run the module on

    Instances of the classes above, used to evaluate the functions on
    concrete inputs: decimal numerals, the proleptic Gregorian calendar, and a
    clock for a time zone with at most one daylight-saving period. *)

Module Sample.

(** *** Decimal numerals *)

Definition digit_value (c : ascii) : option Z :=
  let n := Z.of_nat (nat_of_ascii c) in
  if (48 <=? n) && (n <=? 57) then Some (n - 48) else None.

Fixpoint parse_digits (s : string) (acc : Z) : option Z :=
  match s with
  | EmptyString => Some acc
  | String c s' => d ← digit_value c; parse_digits s' (acc * 10 + d)
  end.

(** The text before the first dot, and the text after it if there is one. *)
Fixpoint split_dot (s : string) : string * option string :=
  match s with
  | EmptyString => (EmptyString, None)
  | String c s' =>
      if Ascii.eqb c "."%char then (EmptyString, Some s')
      else let (a, b) := split_dot s' in (String c a, b)
  end.

Definition unsigned_decimal (s : string) : option Q :=
  let (whole, frac) := split_dot s in
  if String.eqb whole "" then None
  else
    w ← parse_digits whole 0;
    match frac with
    | None => Some (inject_Z w)
    | Some f =>
        n ← parse_digits f 0;
        let scale := 10 ^ Z.of_nat (String.length f) in
        Some (Qred (Qmake (w * scale + n) (Z.to_pos scale)))
    end.

Definition decimal (s : string) : option Q :=
  match s with
  | String "-" s' => Qopp <$> unsigned_decimal s'
  | _ => unsigned_decimal s
  end.

Definition integer (s : string) : option Z :=
  match s with
  | EmptyString => None
  | String "-" s' =>
      if String.eqb s' "" then None else Z.opp <$> parse_digits s' 0
  | _ => parse_digits s 0
  end.

Definition numerals : Numerals :=
  {| float_of_string := decimal; int_of_string := integer |}.

(** *** Printing *)

Definition digit (n : Z) : ascii := ascii_of_nat (48 + Z.to_nat n).

Fixpoint show_digits (fuel : nat) (n : Z) (acc : string) : string :=
  match fuel with
  | O => acc
  | S fuel' =>
      let acc' := String (digit (n mod 10)) acc in
      if n <? 10 then acc' else show_digits fuel' (n / 10) acc'
  end.

Definition show_nat (n : Z) : string :=
  show_digits (S (Z.to_nat (Z.log2 n))) n "".

Definition show_Z (z : Z) : string :=
  if z <? 0 then "-" +:+ show_nat (- z) else show_nat z.

(** Four digits after the point, rounded half to even. *)
Definition show_4f (q : Q) : string :=
  let r := round_half_even (q * inject_Z 10000) in
  let a := Z.abs r in
  let frac := a mod 10000 in
  (if r <? 0 then "-" else "") +:+ show_nat (a / 10000) +:+ "." +:+
  (if frac <? 10 then "000" else if frac <? 100 then "00"
   else if frac <? 1000 then "0" else "") +:+ show_nat frac.

(** Integers print as Python prints them; the examples print nothing else
    with [str]. *)
Definition printing : Printing :=
  {| str := λ v, match v with
                 | PInt z => show_Z z
                 | PStr s => s
                 | PNone => "None"
                 | PBool b => if b then "True" else "False"
                 | _ => "?"
                 end;
     format_4f := λ v, show_4f <$> (num_Q <$> as_num v) |}.

(** *** The calendar *)

(** The calendar is the proleptic Gregorian one, computed on years that
    start on 1 March and on eras of 400 such years (146097 days). *)

Definition is_leap (y : Z) : bool :=
  (y mod 4 =? 0) && (negb (y mod 100 =? 0) || (y mod 400 =? 0)).

Definition days_in_month (y m : Z) : Z :=
  if m =? 2 then (if is_leap y then 29 else 28)
  else if (m =? 4) || (m =? 6) || (m =? 9) || (m =? 11) then 30
  else 31.

(** Day of the March-based year, from 0, of day [d] of month [m]. *)
Definition day_of_year (m d : Z) : Z :=
  (153 * ((m + 9) mod 12) + 2) / 5 + d - 1.

(** The month and the day of the month of a day of the March-based year. *)
Definition month_day (doy : Z) : Z * Z :=
  let mp := (5 * doy + 2) / 153 in
  (if mp <? 10 then mp + 3 else mp - 9, doy - (153 * mp + 2) / 5 + 1).

(** Day of the era, from 0, of day [doy] of year [yoe] of the era. *)
Definition day_of_era (yoe doy : Z) : Z :=
  yoe * 365 + yoe / 4 - yoe / 100 + doy.

Definition year_of_era (doe : Z) : Z :=
  (doe - doe / 1460 + doe / 36524 - doe / 146096) / 365.

(** Days from 1970-01-01 to the given date. *)
Definition days_from_civil (y m d : Z) : Z :=
  let y' := if m <=? 2 then y - 1 else y in
  let era := y' / 400 in
  let yoe := y' - era * 400 in
  era * 146097 + day_of_era yoe (day_of_year m d) - 719468.

(** The date that many days after 1970-01-01. *)
Definition civil_from_days (z : Z) : Z * Z * Z :=
  let z' := z + 719468 in
  let era := z' / 146097 in
  let doe := z' - era * 146097 in
  let yoe := year_of_era doe in
  let '(m, d) := month_day (doe - day_of_era yoe 0) in
  let y := yoe + era * 400 in
  (if m <=? 2 then y + 1 else y, m, d).

(** A broken-down time that names a second of a day of the calendar. *)
Definition valid_time (tm : struct_time) : Prop :=
  1 <= tm_mon tm <= 12 ∧
  1 <= tm_mday tm <= days_in_month (tm_year tm) (tm_mon tm) ∧
  0 <= tm_hour tm < 24 ∧ 0 <= tm_min tm < 60 ∧ 0 <= tm_sec tm < 60.

(** [timegm]: a broken-down time read as UTC. *)
Definition timegm (tm : struct_time) : Z :=
  days_from_civil (tm_year tm) (tm_mon tm) (tm_mday tm) * 86400
  + tm_hour tm * 3600 + tm_min tm * 60 + tm_sec tm.

(** [gmtime]: epoch seconds as a UTC broken-down time. *)
Definition gmtime (t : Z) : struct_time :=
  let '(y, m, d) := civil_from_days (t / 86400) in
  let s := t mod 86400 in
  {| tm_year := y; tm_mon := m; tm_mday := d;
     tm_hour := s / 3600; tm_min := s mod 3600 / 60; tm_sec := s mod 60 |}.

(** *** Time zones *)

(** Offsets from UTC in seconds; daylight-saving time is in force from the
    instant [dst_start] up to the instant [dst_end] (epoch seconds). *)
Record zone := {
  std_offset : Z;
  dst_offset : Z;
  dst_start : Z;
  dst_end : Z
}.

Definition utcoffset (z : zone) (t : Z) : Z :=
  if (dst_start z <=? t) && (t <? dst_end z) then dst_offset z
  else std_offset z.

Definition zone_localtime (z : zone) (t : Z) : struct_time :=
  gmtime (t + utcoffset z t).

Definition struct_time_eqb (a b : struct_time) : bool :=
  (tm_year a =? tm_year b) && (tm_mon a =? tm_mon b) &&
  (tm_mday a =? tm_mday b) && (tm_hour a =? tm_hour b) &&
  (tm_min a =? tm_min b) && (tm_sec a =? tm_sec b).

(** [mktime] with [tm_isdst = -1]: the instant that shows the given local
    time, standard time tried first; a local time that no instant shows
    (skipped when the clocks go forward) is read with the standard offset. *)
Definition zone_mktime (z : zone) (tm : struct_time) : Z :=
  let g := timegm tm in
  let t_std := g - std_offset z in
  let t_dst := g - dst_offset z in
  if struct_time_eqb (zone_localtime z t_std) tm then t_std
  else if struct_time_eqb (zone_localtime z t_dst) tm then t_dst
  else t_std.

Definition clock (z : zone) : Clock :=
  {| mktime := λ tm, Ok (zone_mktime z tm);
     localtime := λ t, Ok (zone_localtime z t) |}.

(** A zone with a fixed offset. *)
Definition fixed (offset : Z) : zone :=
  {| std_offset := offset; dst_offset := offset; dst_start := 0; dst_end := 0 |}.

Definition utc : Clock := clock (fixed 0).

(** US Eastern time in 2021: UTC-5, and UTC-4 from 2021-03-14 07:00:00 UTC
    to 2021-11-07 06:00:00 UTC. *)
Definition eastern_2021 : zone :=
  {| std_offset := -18000; dst_offset := -14400;
     dst_start := 1615705200; dst_end := 1636264800 |}.

Definition eastern : Clock := clock eastern_2021.

(** *** Configuration and services *)

Definition config : Config := {| GOOGLE_API_KEY := PStr "key" |}.

(** A service that answers every request with the same body. *)
Definition answering (body : pyval) : Network := {| http := λ _ _, body |}.
End Sample.

(** ** Inputs for the examples *)

Module Examples.
(** A record of the timeline service, with the given actor and details. *)
Definition record_with (actor : list (string * pyval)) (details : pyval) :
    pyval :=
  PDict [ ("observation",
           PDict [ ("_id", PStr "5a1b");
                   ("reported_at", PInt 1625416215000);
                   ("location", PList [PFloat 10; PFloat 20]);
                   ("type", PStr "snow_conditions");
                   ("details", details) ]);
          ("actor", PDict actor) ].

Definition ann : list (string * pyval) := [("full_name", PStr "Ann")].

(** An actor whose [full_name] is present and empty. *)
Definition blank_ann : list (string * pyval) :=
  [("full_name", PStr ""); ("fullName", PStr "Ann B.")].

Definition depth_details : list pyval :=
  [PDict [("snowpack_depth", PStr "5.5")]].

Definition record : pyval := record_with ann (PList depth_details).
Definition blank_record : pyval := record_with blank_ann (PList depth_details).

(** 2021-07-04 16:30:15 UTC, the instant [1625416215]. *)
Definition reported_date : datetime :=
  {| year := 2021; month := 7; day := 4; hour := 16; minute := 30;
     second := 15; microsecond := 0 |}.

Definition row_of (author : pyval) : Snow.row :=
  {| Snow.author_name := author; Snow.id := PStr "5a1b";
     Snow.timestamp := 1625416215000; Snow.date := Some reported_date;
     Snow.lat := PFloat 20; Snow.long := PFloat 10;
     Snow.type := PStr "snow_conditions"; Snow.snow_depth := Some (11 # 2) |}.

(** A summer afternoon with a sub-second part, and the local time
    2021-03-14 02:30:00, which US Eastern clocks skipped. *)
Definition summer_date : datetime :=
  {| year := 2021; month := 7; day := 4; hour := 12; minute := 30;
     second := 15; microsecond := 250000 |}.

Definition skipped_date : datetime :=
  {| year := 2021; month := 3; day := 14; hour := 2; minute := 30;
     second := 0; microsecond := 0 |}.

Definition unit_box : pyval :=
  PDict [("ymin", PInt 0); ("ymax", PInt 1); ("xmin", PInt 0); ("xmax", PInt 1)].

(** The 257 points [(0, 0)], [(1, 1)], ..., [(256, 256)]. *)
Definition points257 : list (pyval * pyval) :=
  map (λ i, (PInt (Z.of_nat i), PInt (Z.of_nat i))) (seq 0 257).

Definition bad_body : pyval := PDict [("error", PStr "bad")].
Definition empty_results : pyval := PDict [("results", PList [])].
(** The observation of [record], and the row of a record without depth. *)
Definition observation : list (string * pyval) :=
  [ ("_id", PStr "5a1b");
    ("reported_at", PInt 1625416215000);
    ("location", PList [PFloat 10; PFloat 20]);
    ("type", PStr "snow_conditions");
    ("details", PList depth_details) ].

Definition bare_row : Snow.row :=
  {| Snow.author_name := PStr "Ann"; Snow.id := PStr "5a1b";
     Snow.timestamp := 1625416215000; Snow.date := Some reported_date;
     Snow.lat := PFloat 20; Snow.long := PFloat 10;
     Snow.type := PStr "snow_conditions"; Snow.snow_depth := None |}.

(** A body of the timeline service with two records, one without depth. *)
Definition timeline_body : pyval :=
  PDict [("results", PList [record; record_with ann (PList [])])].

Definition two_points : list (pyval * pyval) :=
  [(PInt 0, PInt 0); (PInt 1, PInt 1)].

(** Bodies of the elevation service with two records and with one. *)
Definition elevation_body : pyval :=
  PDict [("results", PList [PDict [("elevation", PInt 10)];
                            PDict [("elevation", PFloat (41 # 2))]])].

Definition short_body : pyval :=
  PDict [("results", PList [PDict [("elevation", PInt 10)]])].
End Examples.

(** * Properties *)

(** ** The exception monad *)

Lemma bind_Ok {A B} (m : result A) (f : A → result B) (y : B) :
  m ≫= f = Ok y ↔ ∃ x, m = Ok x ∧ f x = Ok y.
Proof.
  destruct m as [e|x]; simpl; split.
  - discriminate.
  - intros (x & Hx & _). discriminate.
  - intros Hy. exists x. split; [reflexivity | exact Hy].
  - intros (x' & Hx & Hy). injection Hx as ->. exact Hy.
Qed.

Lemma fmap_Ok {A B} (m : result A) (f : A → B) (y : B) :
  f <$> m = Ok y ↔ ∃ x, m = Ok x ∧ f x = y.
Proof.
  destruct m as [e|x]; simpl; split.
  - discriminate.
  - intros (x & Hx & _). discriminate.
  - intros Hy. exists x. split; [reflexivity | congruence].
  - intros (x' & Hx & Hy). injection Hx as ->. congruence.
Qed.

Lemma bind_Raise {A B} (m : result A) (f : A → result B) (e : exn) :
  m = Raise e → m ≫= f = Raise e.
Proof. intros ->. reflexivity. Qed.

(** Splits a hypothesis [m ≫= f = Ok y] into the two steps it stands for. *)
Ltac step H x Hx :=
  apply bind_Ok in H; destruct H as (x & Hx & H); cbn beta in H.

(** ** Timestamps *)

(** C7.  Both conversions hand the absent value [None] back unchanged, and
    raise nothing. *)
Theorem absent_pass_through {clock : Clock} :
  dateToTimestamp None = Ok None ∧ timestampToDate None = Ok None.
Proof. split; reflexivity. Qed.

Lemma round_half_even_integer (x : Q) (n : Z) :
  (x == inject_Z n)%Q → round_half_even x = n.
Proof.
  intros Hx. unfold round_half_even.
  rewrite (Qfloor_comp _ _ Hx), Qfloor_Z.
  assert (Hd : (x - inject_Z n == 0)%Q) by (rewrite Hx; ring).
  rewrite Hd. reflexivity.
Qed.

(** A whole number of seconds, written in milliseconds and divided by 1000,
    is read back as that many seconds and no microsecond. *)
Lemma fromtimestamp_whole {clock : Clock} (s : Z) (tm : struct_time) :
  localtime s = Ok tm →
  fromtimestamp (s * 1000 # 1000) =
    Ok {| year := tm_year tm; month := tm_mon tm; day := tm_mday tm;
          hour := tm_hour tm; minute := tm_min tm;
          second := Z.min 59 (tm_sec tm); microsecond := 0 |}.
Proof.
  intros Hl. unfold fromtimestamp.
  rewrite (round_half_even_integer _ (s * 1000000)).
  2:{ unfold Qeq, Qmult, inject_Z. simpl. lia. }
  rewrite Z.div_mul, Z.mod_mul by lia.
  rewrite Hl. reflexivity.
Qed.


(** ** The calendar and the time zones of the sample host

    The two calendar conversions are inverse of each other, so a zone's
    [mktime] is faithful on every local time that some instant shows. *)

Section calendar.
Import Sample.

Lemma is_leap_spec (y : Z) :
  is_leap y = true ↔ y mod 4 = 0 ∧ (y mod 100 ≠ 0 ∨ y mod 400 = 0).
Proof.
  unfold is_leap.
  rewrite andb_true_iff, orb_true_iff, negb_true_iff, !Z.eqb_eq, Z.eqb_neq.
  reflexivity.
Qed.

Lemma days_in_month_bounds (y m d : Z) :
  1 <= m <= 12 → 1 <= d <= days_in_month y m →
  d <= 31 ∧ (m = 4 ∨ m = 6 ∨ m = 9 ∨ m = 11 → d <= 30) ∧
  (m = 2 → d <= 29 ∧ (d = 29 → is_leap y = true)).
Proof.
  intros Hm Hd. unfold days_in_month in Hd.
  destruct (Z.eqb_spec m 2) as [-> | H2].
  - destruct (is_leap y); repeat split; try lia; intros; lia.
  - destruct (Z.eqb_spec m 4), (Z.eqb_spec m 6), (Z.eqb_spec m 9),
      (Z.eqb_spec m 11); simpl in Hd; repeat split; intros; lia.
Qed.

Lemma month_day_of_year (m d : Z) :
  1 <= m <= 12 → 1 <= d <= 31 →
  (m = 4 ∨ m = 6 ∨ m = 9 ∨ m = 11 → d <= 30) → (m = 2 → d <= 29) →
  month_day (day_of_year m d) = (m, d) ∧
  0 <= day_of_year m d <= 365 ∧
  (day_of_year m d = 365 → m = 2 ∧ d = 29).
Proof.
  intros Hm Hd H30 H29. unfold month_day, day_of_year. cbv zeta.
  assert (Hc : m = 1 ∨ m = 2 ∨ m = 3 ∨ m = 4 ∨ m = 5 ∨ m = 6 ∨ m = 7 ∨ m = 8
               ∨ m = 9 ∨ m = 10 ∨ m = 11 ∨ m = 12) by lia.
  repeat (destruct Hc as [-> | Hc]); try subst m;
    match goal with
    | |- context [(153 * ((?a + 9) mod 12) + 2) / 5] =>
        let v := eval vm_compute in ((a + 9) mod 12) in
        let c := eval vm_compute in ((153 * v + 2) / 5) in
        change ((153 * ((a + 9) mod 12) + 2) / 5) with c;
        assert (Hq : (5 * (c + d - 1) + 2) / 153 = v)
          by (Z.to_euclidean_division_equations; lia);
        rewrite Hq
    end;
    (split; [vm_compute (if _ <? _ then _ else _);
             match goal with
             | |- context [(153 * ?v + 2) / 5] =>
                 let c := eval vm_compute in ((153 * v + 2) / 5) in
                 change ((153 * v + 2) / 5) with c
             end; f_equal; lia
            | lia]).
Qed.

Lemma year_of_day_of_era (yoe doy : Z) :
  0 <= yoe < 400 → 0 <= doy <= 365 →
  (doy = 365 → is_leap (yoe + 1) = true) →
  year_of_era (day_of_era yoe doy) = yoe ∧ 0 <= day_of_era yoe doy < 146097.
Proof.
  intros Hy Hd Hl. unfold year_of_era, day_of_era.
  assert (Hl' : doy = 365 → (yoe + 1) mod 4 = 0 ∧
                 ((yoe + 1) mod 100 ≠ 0 ∨ (yoe + 1) mod 400 = 0))
    by (intros ->; apply is_leap_spec, Hl; reflexivity).
  clear Hl. Z.to_euclidean_division_equations; lia.
Qed.

Lemma is_leap_era (yoe era : Z) : is_leap (yoe + era * 400) = is_leap yoe.
Proof.
  unfold is_leap.
  replace ((yoe + era * 400) mod 4) with (yoe mod 4)
    by (Z.to_euclidean_division_equations; lia).
  replace ((yoe + era * 400) mod 100) with (yoe mod 100)
    by (Z.to_euclidean_division_equations; lia).
  replace ((yoe + era * 400) mod 400) with (yoe mod 400)
    by (Z.to_euclidean_division_equations; lia).
  reflexivity.
Qed.

Lemma civil_from_days_from_civil (y m d : Z) :
  1 <= m <= 12 → 1 <= d <= days_in_month y m →
  civil_from_days (days_from_civil y m d) = (y, m, d).
Proof.
  intros Hm Hd.
  destruct (days_in_month_bounds y m d Hm Hd) as (H31 & H30 & H29).
  destruct (month_day_of_year m d Hm ltac:(lia) H30
              ltac:(intros; apply H29; assumption))
    as (Hmd & Hdoy & Hlast).
  unfold days_from_civil, civil_from_days. cbv zeta.
  set (y' := if m <=? 2 then y - 1 else y).
  set (era := y' / 400). set (yoe := y' - era * 400).
  assert (Hyoe : 0 <= yoe < 400)
    by (unfold yoe, era; Z.to_euclidean_division_equations; lia).
  assert (Hleap : day_of_year m d = 365 → is_leap (yoe + 1) = true).
  { intros H365. destruct (Hlast H365) as [-> ->].
    replace (yoe + 1) with (y + (- era) * 400)
      by (unfold yoe, y'; simpl; lia).
    rewrite is_leap_era. apply H29; reflexivity. }
  destruct (year_of_day_of_era yoe (day_of_year m d) Hyoe Hdoy Hleap)
    as (Hy & Hdoe).
  set (doe := day_of_era yoe (day_of_year m d)) in *.
  replace (era * 146097 + doe - 719468 + 719468)
    with (doe + era * 146097) by lia.
  rewrite Z.div_add by lia. rewrite (Z.div_small doe) by lia.
  replace (doe + era * 146097 - (0 + era) * 146097) with doe by lia.
  rewrite Hy.
  replace (doe - day_of_era yoe 0) with (day_of_year m d)
    by (unfold doe, day_of_era; lia).
  rewrite Hmd.
  replace (yoe + era * 400) with y' by (unfold yoe; lia).
  unfold y'. destruct (m <=? 2); f_equal; f_equal; lia.
Qed.

Lemma year_of_era_bounds (doe : Z) :
  0 <= doe < 146097 →
  0 <= year_of_era doe < 400 ∧
  0 <= doe - day_of_era (year_of_era doe) 0 <= 365.
Proof.
  intros Hd. unfold year_of_era, day_of_era.
  Z.to_euclidean_division_equations; lia.
Qed.

Lemma day_of_year_month_day (doy : Z) :
  0 <= doy <= 365 →
  let '(m, d) := month_day doy in
  day_of_year m d = doy ∧ (m <=? 2) = (306 <=? doy).
Proof.
  intros Hd. unfold month_day, day_of_year. cbv zeta.
  set (mp := (5 * doy + 2) / 153).
  assert (Hmp : 0 <= mp <= 11)
    by (unfold mp; Z.to_euclidean_division_equations; lia).
  assert (Hdoy : (mp <? 10) = (doy <? 306)).
  { unfold mp. destruct (Z.ltb_spec doy 306);
      [apply Z.ltb_lt | apply Z.ltb_ge];
      Z.to_euclidean_division_equations; lia. }
  destruct (Z.ltb_spec mp 10) as [Hlt | Hge].
  - replace ((mp + 3 + 9) mod 12) with mp
      by (Z.to_euclidean_division_equations; lia).
    split; [lia |].
    symmetry in Hdoy. apply Z.ltb_lt in Hdoy.
    rewrite (proj2 (Z.leb_gt _ _)) by lia.
    rewrite (proj2 (Z.leb_gt _ _)) by lia. reflexivity.
  - replace ((mp - 9 + 9) mod 12) with mp
      by (Z.to_euclidean_division_equations; lia).
    split; [lia |].
    symmetry in Hdoy. apply Z.ltb_ge in Hdoy.
    rewrite (proj2 (Z.leb_le _ _)) by lia.
    rewrite (proj2 (Z.leb_le _ _)) by lia. reflexivity.
Qed.

Lemma days_from_civil_from_days (z : Z) :
  let '(y, m, d) := civil_from_days z in days_from_civil y m d = z.
Proof.
  unfold civil_from_days. cbv zeta.
  set (z' := z + 719468). set (era := z' / 146097).
  set (doe := z' - era * 146097).
  assert (Hdoe : 0 <= doe < 146097)
    by (unfold doe, era; Z.to_euclidean_division_equations; lia).
  destruct (year_of_era_bounds doe Hdoe) as (Hyoe & Hdoy).
  set (yoe := year_of_era doe) in *.
  pose proof (day_of_year_month_day _ Hdoy) as Hmd.
  destruct (month_day (doe - day_of_era yoe 0)) as [m d].
  destruct Hmd as (Hmd & Hm).
  unfold days_from_civil. cbv zeta.
  set (y' := if m <=? 2
             then (if m <=? 2 then yoe + era * 400 + 1 else yoe + era * 400) - 1
             else (if m <=? 2 then yoe + era * 400 + 1 else yoe + era * 400)).
  assert (Hy' : y' = yoe + era * 400)
    by (unfold y'; destruct (m <=? 2); lia).
  rewrite Hy'. rewrite Z.div_add by lia. rewrite (Z.div_small yoe) by lia.
  replace (yoe + era * 400 - (0 + era) * 400) with yoe by lia.
  rewrite Hmd. unfold day_of_era in *. unfold doe, z'. lia.
Qed.

Lemma gmtime_timegm (tm : struct_time) :
  valid_time tm → gmtime (timegm tm) = tm.
Proof.
  intros (Hm & Hd & Hh & Hmi & Hs). unfold gmtime, timegm.
  set (days := days_from_civil (tm_year tm) (tm_mon tm) (tm_mday tm)).
  set (secs := tm_hour tm * 3600 + tm_min tm * 60 + tm_sec tm).
  replace (days * 86400 + tm_hour tm * 3600 + tm_min tm * 60 + tm_sec tm)
    with (secs + days * 86400) by (unfold secs; lia).
  assert (Hsecs : 0 <= secs < 86400) by (unfold secs; lia).
  rewrite Z.div_add, Z.mod_add by lia.
  rewrite (Z.div_small secs), (Z.mod_small secs) by lia. rewrite Z.add_0_l.
  unfold days. rewrite civil_from_days_from_civil by assumption.
  destruct tm as [y m d h mi s]; simpl in *. unfold secs.
  f_equal; Z.to_euclidean_division_equations; lia.
Qed.

Lemma timegm_gmtime (t : Z) : timegm (gmtime t) = t.
Proof.
  unfold gmtime, timegm.
  pose proof (days_from_civil_from_days (t / 86400)) as Hd.
  destruct (civil_from_days (t / 86400)) as [[y m] d]. simpl.
  rewrite Hd. Z.to_euclidean_division_equations; lia.
Qed.

(** *** Time zones *)

Lemma struct_time_eqb_eq (a b : struct_time) :
  struct_time_eqb a b = true ↔ a = b.
Proof.
  unfold struct_time_eqb. rewrite !andb_true_iff, !Z.eqb_eq. split.
  - intros (((((Hy & Hm) & Hd) & Hh) & Hmi) & Hs).
    destruct a, b; simpl in *. congruence.
  - intros ->. repeat split; reflexivity.
Qed.

(** An instant that shows a local time is that time read as UTC, less one of
    the two offsets of the zone. *)
Lemma zone_localtime_inv (z : zone) (t : Z) (tm : struct_time) :
  zone_localtime z t = tm →
  t = timegm tm - std_offset z ∨ t = timegm tm - dst_offset z.
Proof.
  unfold zone_localtime. intros <-. rewrite timegm_gmtime.
  unfold utcoffset. destruct (_ && _); lia.
Qed.

(** [mktime] finds an instant that shows the local time whenever there is
    one. *)
Lemma zone_mktime_shown (z : zone) (tm : struct_time) :
  (∃ t, zone_localtime z t = tm) →
  zone_localtime z (zone_mktime z tm) = tm.
Proof.
  intros [t Ht]. unfold zone_mktime. cbv zeta.
  destruct (struct_time_eqb (zone_localtime z (timegm tm - std_offset z)) tm)
    eqn:Hstd; [apply struct_time_eqb_eq; exact Hstd |].
  destruct (struct_time_eqb (zone_localtime z (timegm tm - dst_offset z)) tm)
    eqn:Hdst; [apply struct_time_eqb_eq; exact Hdst |].
  destruct (zone_localtime_inv z t tm Ht) as [-> | ->];
    apply struct_time_eqb_eq in Ht; congruence.
Qed.

(** In a zone with a fixed offset every valid local time is shown. *)
Lemma fixed_zone_shows (offset : Z) (tm : struct_time) :
  valid_time tm → zone_localtime (fixed offset) (timegm tm - offset) = tm.
Proof.
  intros Hv. unfold zone_localtime.
  replace (utcoffset (fixed offset) (timegm tm - offset)) with offset
    by (unfold utcoffset; simpl; destruct (_ && _); reflexivity).
  replace (timegm tm - offset + offset) with (timegm tm) by lia.
  apply gmtime_timegm. exact Hv.
Qed.

(** The two conversions on a host whose clock answers [s] for the date. *)
Lemma round_trip_through {clock : Clock} (date : datetime) (s : Z) :
  mktime (timetuple date) = Ok s →
  dateToTimestamp (Some date) ≫= timestampToDate
  = Some <$> fromtimestamp (s * 1000 # 1000).
Proof. intros Hm. unfold dateToTimestamp. rewrite Hm. reflexivity. Qed.

(** The round trip on a host in zone [z], for a date some instant shows. *)
Lemma zone_round_trip (z : zone) (date : datetime) :
  second date <= 59 →
  (∃ t, zone_localtime z t = timetuple date) →
  dateToTimestamp (clock := clock z) (Some date)
    ≫= timestampToDate (clock := clock z)
  = Ok (Some (whole_seconds date)).
Proof.
  intros Hs Hshown. apply zone_mktime_shown in Hshown.
  rewrite (round_trip_through (clock := clock z) date
             (zone_mktime z (timetuple date)) eq_refl).
  rewrite (fromtimestamp_whole (clock := clock z) _ (timetuple date)).
  - cbn [fmap result_fmap timetuple tm_year tm_mon tm_mday tm_hour tm_min tm_sec].
    rewrite Z.min_r by exact Hs. reflexivity.
  - cbn [localtime clock]. rewrite Hshown. reflexivity.
Qed.

(** On a host whose zone has a fixed offset, the round trip holds for every
    valid date. *)
Lemma fixed_offset_round_trip (offset : Z) (date : datetime) :
  valid_time (timetuple date) →
  dateToTimestamp (clock := clock (fixed offset)) (Some date)
    ≫= timestampToDate (clock := clock (fixed offset))
  = Ok (Some (whole_seconds date)).
Proof.
  intros Hv. apply zone_round_trip.
  - destruct Hv as (_ & _ & _ & _ & Hs). simpl in Hs. lia.
  - exists (timegm (timetuple date) - offset). apply fixed_zone_shows, Hv.
Qed.

(** No instant of US Eastern time shows 2021-03-14 02:30:00. *)
Lemma skipped_date_never_shown :
  ¬ ∃ t, zone_localtime eastern_2021 t = timetuple Examples.skipped_date.
Proof.
  intros [t Ht].
  destruct (zone_localtime_inv _ _ _ Ht) as [-> | ->];
    vm_compute in Ht; discriminate.
Qed.

(** Hence the round trip fails there whatever instant [mktime] picks. *)
Lemma skipped_date_lost (pick : struct_time → result Z) :
  let host := {| mktime := pick;
                 localtime := λ t, Ok (zone_localtime eastern_2021 t) |} in
  dateToTimestamp (clock := host) (Some Examples.skipped_date)
    ≫= timestampToDate (clock := host)
  ≠ Ok (Some Examples.skipped_date).
Proof.
  intros host Hrt. apply skipped_date_never_shown.
  destruct (pick (timetuple Examples.skipped_date)) as [e|s] eqn:Hpick.
  - unfold dateToTimestamp in Hrt. cbn [mktime host] in Hrt.
    rewrite Hpick in Hrt. discriminate.
  - rewrite (round_trip_through (clock := host) _ s Hpick) in Hrt.
    rewrite (fromtimestamp_whole (clock := host) s
               (zone_localtime eastern_2021 s) eq_refl) in Hrt.
    exists s.
    destruct (zone_localtime eastern_2021 s) as [y m d h mi sec].
    cbn [fmap result_fmap tm_year tm_mon tm_mday tm_hour tm_min tm_sec] in Hrt.
    injection Hrt as Hy Hm Hd Hh Hmi Hs.
    unfold timetuple, Examples.skipped_date.
    cbn [year month day hour minute second].
    f_equal; lia.
Qed.
End calendar.

(** ** Batches and intervals *)

(** 300 items make a batch of 256 and a batch of 44, in order. *)
Example batches_300 :
  batches (seq 0 300) 256 = Ok [seq 0 256; seq 256 44].
Proof. vm_compute. reflexivity. Qed.

Lemma as_num_of_num (a : num) : as_num (of_num a) = Ok a.
Proof. destruct a; reflexivity. Qed.

Lemma num_ltb_int (x y : Z) : num_ltb (NInt x) (NInt y) = (x <? y).
Proof.
  unfold num_ltb, Z.ltb, Qcompare. simpl. rewrite !Z.mul_1_r. reflexivity.
Qed.

Lemma intervals_loop_step (fuel : nat) (a b : num) (n k : Z) :
  k < n →
  intervals_loop (S fuel) (of_num a) (of_num b) (PInt n) (PInt k) =
    match lattice_value a b n k with
    | Raise e => [Raise e]
    | Ok v =>
        Ok v ::
        intervals_loop fuel (of_num a) (of_num b) (PInt n) (PInt (k + 1))
    end.
Proof.
  intros Hk. cbn [intervals_loop]. unfold py_lt.
  cbn [as_num mbind result_bind mret result_ret]. rewrite num_ltb_int.
  rewrite (proj2 (Z.ltb_lt k n) Hk).
  unfold py_sub, py_mul, py_truediv, py_add, lattice_value.
  cbn [as_num].
  repeat (progress (rewrite ?as_num_of_num;
                    cbn [mbind result_bind mret result_ret fmap result_fmap])).
  destruct (num_truediv _ _) as [e|q]; [reflexivity |].
  repeat (progress (rewrite ?as_num_of_num;
                    cbn [mbind result_bind mret result_ret fmap result_fmap])).
  reflexivity.
Qed.





(** ** Request parameters *)

Lemma removeEmptyParams_lookup (dict : gmap string pyval) (k : string) (v : pyval) :
  removeEmptyParams dict !! k = Some v ↔ dict !! k = Some v ∧ v ≠ PNone.
Proof. unfold removeEmptyParams. apply map_lookup_filter_Some. Qed.

Lemma removeEmptyParams_absent (dict : gmap string pyval) (k : string) :
  removeEmptyParams dict !! k = None ↔ dict !! k = None ∨ dict !! k = Some PNone.
Proof.
  unfold removeEmptyParams. rewrite map_lookup_filter_None. split.
  - intros [Hn | Hall]; [left; exact Hn |].
    destruct (dict !! k) as [v|] eqn:Hk; [| left; reflexivity].
    right. destruct (decide (v = PNone)) as [-> | Hv]; [reflexivity |].
    exfalso. exact (Hall v eq_refl Hv).
  - intros [Hn | Hs]; [left; exact Hn |].
    right. intros v Hv. rewrite Hs in Hv. injection Hv as <-.
    simpl. intros Hne. apply Hne. reflexivity.
Qed.

(** C8.  The result of [removeEmptyParams] has exactly the entries of its
    argument whose value is not [None]: a key is bound to [v] in the result
    just when it is bound to [v] in the argument and [v] is not [None].  Zero
    and the empty string are values like any other, and
    [{a: 1, b: None, c: 0}] becomes [{a: 1, c: 0}]. *)
Theorem removeEmptyParams_exact :
  (∀ (dict : gmap string pyval) k v,
     removeEmptyParams dict !! k = Some v ↔ dict !! k = Some v ∧ v ≠ PNone) ∧
  (∀ (dict : gmap string pyval) k,
     removeEmptyParams dict !! k = None ↔
     dict !! k = None ∨ dict !! k = Some PNone) ∧
  (∀ (dict : gmap string pyval) k,
     (dict !! k = Some (PInt 0) → removeEmptyParams dict !! k = Some (PInt 0)) ∧
     (dict !! k = Some (PFloat 0) → removeEmptyParams dict !! k = Some (PFloat 0)) ∧
     (dict !! k = Some (PStr "") → removeEmptyParams dict !! k = Some (PStr ""))) ∧
  removeEmptyParams
    (<["a" := PInt 1]> (<["b" := PNone]> (<["c" := PInt 0]> ∅)))
  = <["a" := PInt 1]> (<["c" := PInt 0]> ∅).
Proof.
  split; [exact removeEmptyParams_lookup |].
  split; [exact removeEmptyParams_absent |].
  split.
  - intros dict k.
    repeat split; intros Hk; apply removeEmptyParams_lookup;
      (split; [exact Hk | discriminate]).
  - apply map_eq. intros k.
    destruct (removeEmptyParams
                (<["a" := PInt 1]> (<["b" := PNone]> (<["c" := PInt 0]> ∅))) !! k)
      as [v|] eqn:Hk.
    + apply removeEmptyParams_lookup in Hk. destruct Hk as [Hk Hv].
      rewrite <- Hk.
      destruct (decide (k = "a")) as [-> | Ha]; [reflexivity |].
      rewrite !(lookup_insert_ne _ "a") by congruence.
      destruct (decide (k = "b")) as [-> | Hb].
      * rewrite (lookup_insert_ne _ "a"), lookup_insert_eq in Hk by congruence.
        congruence.
      * rewrite (lookup_insert_ne _ "b") by congruence. reflexivity.
    + apply removeEmptyParams_absent in Hk.
      destruct (decide (k = "a")) as [-> | Ha].
      { rewrite lookup_insert_eq in Hk. destruct Hk; discriminate. }
      rewrite !(lookup_insert_ne _ "a") in * by congruence.
      destruct (decide (k = "c")) as [-> | Hc].
      { rewrite (lookup_insert_ne _ "b"), lookup_insert_eq in Hk by congruence.
        destruct Hk; discriminate. }
      rewrite lookup_insert_ne by congruence. rewrite lookup_empty. reflexivity.
Qed.

(** ** The snow parser *)

Section parse_snow.
Context {numerals : Numerals} {clock : Clock}.

(** When [parse_snow] returns a row, and which: every step of its body
    succeeded, and each entry of the row is the value of its step. *)
Lemma parse_snow_Ok (record : pyval) (row : Snow.row) :
  parse_snow record = Ok row ↔
  ∃ obs actor raw reported location,
    getitem_key record "observation" = Ok obs ∧
    getitem_key record "actor" = Ok actor ∧
    raw_snow_depth obs = Ok raw ∧
    author_of actor = Ok (Snow.author_name row) ∧
    getitem_key obs "_id" = Ok (Snow.id row) ∧
    getitem_key obs "reported_at" = Ok reported ∧
    py_int reported = Ok (Snow.timestamp row) ∧
    timestampToDate (Some (Snow.timestamp row)) = Ok (Snow.date row) ∧
    getitem_key obs "location" = Ok location ∧
    getitem_index location 1 = Ok (Snow.lat row) ∧
    getitem_index location 0 = Ok (Snow.long row) ∧
    getitem_key obs "type" = Ok (Snow.type row) ∧
    coerce_snow_depth raw = Ok (Snow.snow_depth row).
Proof.
  unfold parse_snow. split.
  - intros Hp.
    step Hp obs Hobs. step Hp actor Hactor. step Hp raw Hraw.
    step Hp author Hauthor. step Hp oid Hid.
    step Hp reported Hrep. step Hp ts Hts.
    step Hp reported' Hrep'. step Hp ts' Hts'.
    step Hp date Hdate. step Hp location Hloc. step Hp lat Hlat.
    step Hp location' Hloc'. step Hp long Hlong.
    step Hp otype Htype. step Hp depth Hdepth.
    injection Hp as <-. simpl.
    assert (reported' = reported) as -> by congruence.
    assert (ts' = ts) as -> by congruence.
    assert (location' = location) as -> by congruence.
    exists obs, actor, raw, reported, location. repeat split; assumption.
  - intros (obs & actor & raw & reported & location & Hobs & Hactor & Hraw
            & Hauthor & Hid & Hrep & Hts & Hdate & Hloc & Hlat & Hlong
            & Htype & Hdepth).
    repeat match goal with
           | Hx : ?m = Ok _ |- context [?m ≫= _] =>
               rewrite Hx; cbn [mbind result_bind]
           end.
    destruct row; reflexivity.
Qed.

(** C9.  For a record whose [location] is the pair [[longitude, latitude]],
    the row [parse_snow] returns has the second element of the pair as
    [lat] and the first as [long]. *)
Theorem parse_snow_swaps_location (record obs longitude latitude : pyval) :
  getitem_key record "observation" = Ok obs →
  getitem_key obs "location" = Ok (PList [longitude; latitude]) →
  ∀ row, parse_snow record = Ok row →
         Snow.lat row = latitude ∧ Snow.long row = longitude.
Proof.
  intros Hobs Hloc row Hrow.
  apply parse_snow_Ok in Hrow.
  destruct Hrow as (obs' & actor & raw & reported & location & Hobs' & _ & _
                    & _ & _ & _ & _ & _ & Hloc' & Hlat & Hlong & _).
  assert (obs' = obs) as -> by congruence.
  assert (location = PList [longitude; latitude]) as -> by congruence.
  simpl in Hlat, Hlong. unfold seq_index in Hlat, Hlong. simpl in Hlat, Hlong.
  split; congruence.
Qed.

(** What [raw_snow_depth] reads, by the shape of the [details] list. *)
Lemma raw_snow_depth_cases (obs : pyval) (details : list pyval) :
  method_get obs "details" (PList [PDict []]) = Ok (PList details) →
  raw_snow_depth obs =
    match details with
    | [] => Ok PNone
    | PNone :: _ => Ok PNone
    | first :: _ => method_get first "snowpack_depth" PNone
    end.
Proof.
  intros Hd. unfold raw_snow_depth. rewrite Hd. cbn [mbind result_bind len].
  destruct details as [|first rest]; [reflexivity |].
  replace (0 <? Z.of_nat (length (first :: rest))) with true
    by (symmetry; apply Z.ltb_lt; simpl; lia).
  simpl. unfold seq_index. simpl.
  replace (Z.pos (Pos.of_succ_nat (length rest)) <=? 0) with false
    by (symmetry; apply Z.leb_gt; lia).
  simpl. destruct first; reflexivity.
Qed.

(** A first element that is neither [None] nor a dictionary has no
    method [get]: the parser raises. *)
Lemma raw_snow_depth_ill_shaped (obs first : pyval) (rest : list pyval) :
  method_get obs "details" (PList [PDict []]) = Ok (PList (first :: rest)) →
  first ≠ PNone → (∀ d, first ≠ PDict d) →
  raw_snow_depth obs = Raise (AttributeError "get").
Proof.
  intros Hd Hnone Hdict. rewrite (raw_snow_depth_cases _ _ Hd).
  destruct first; try reflexivity;
    [congruence | exfalso; eapply Hdict; reflexivity].
Qed.



End parse_snow.

(** ** Retrieval *)

Section retrieval_properties.
Context {numerals : Numerals} {printing : Printing} {clock : Clock}
  {config : Config} {network : Network}.

Lemma io_bind_run {A B} (m : io A) (f : A → io B) (w : list request) :
  (m ≫= f) w =
    match m w with
    | (Raise e, w') => (Raise e, w')
    | (Ok x, w') => f x w'
    end.
Proof. reflexivity. Qed.

(** *** The grid of [average_elevation] *)

(** The generator raises at its first [next], whatever its arguments: the
    name [stops] is bound nowhere. *)
Lemma intervals_unbound (start end_ n : pyval) :
  intervals start end_ n = [Raise (NameError "stops")].
Proof. reflexivity. Qed.


Lemma grid_name_error (box grid_size ymin ymax : pyval) (w : list request) :
  getitem_key box "ymin" = Ok ymin →
  getitem_key box "ymax" = Ok ymax →
  grid box grid_size w = (Raise (NameError "stops"), w).
Proof.
  intros Hmin Hmax. unfold grid. rewrite !io_bind_run. unfold pure.
  rewrite Hmin, io_bind_run, Hmax, intervals_unbound. reflexivity.
Qed.


Lemma average_elevation_name_error
    (box grid_size gs ymin ymax : pyval) (w : list request) :
  py_min grid_size (PInt 16) = Ok gs →
  getitem_key box "ymin" = Ok ymin →
  getitem_key box "ymax" = Ok ymax →
  average_elevation box grid_size w = (Raise (NameError "stops"), w).
Proof.
  intros Hgs Hmin Hmax.
  unfold average_elevation. rewrite io_bind_run. unfold pure at 1.
  rewrite Hgs, io_bind_run, (grid_name_error _ _ _ _ _ Hmin Hmax).
  reflexivity.
Qed.

(** *** The mean *)


Lemma results_of_missing (data : pyval) :
  contains "results" data = Ok false →
  results_of data = Raise (ValueError data).
Proof. intros Hc. unfold results_of. rewrite Hc. reflexivity. Qed.


(** *** A body without [results] *)

(** [snow_data] raises [ValueError] with the whole body as soon as the body
    answered to its request has no [results]. *)
Lemma snow_data_missing_results
    (limit : pyval) (start end_ : option datetime) (box : pyval)
    (filter : bool) (since before : option Z) (corners : gmap string pyval)
    (w : list request) :
  dateToTimestamp start = Ok since →
  dateToTimestamp end_ = Ok before →
  make_box box = Ok corners →
  let r := timeline_request limit since before corners in
  contains "results" (http (length w) r) = Ok false →
  snow_data limit start end_ box filter w =
    (Raise (ValueError (http (length w) r)), w ++ [r]).
Proof.
  intros Hs He Hb r Hc.
  unfold snow_data. rewrite io_bind_run. unfold pure at 1. rewrite Hs.
  rewrite io_bind_run. unfold pure at 1. rewrite He.
  rewrite io_bind_run. unfold pure at 1. rewrite Hb.
  rewrite io_bind_run. unfold requests_get at 1.
  fold (timeline_request limit since before corners). fold r.
  rewrite io_bind_run. unfold pure at 1.
  rewrite (results_of_missing _ Hc). reflexivity.
Qed.

(** One round of the loop of [el_data]: the request is the same for every
    batch, and carries every point. *)
Lemma el_request_run (points batch : list (pyval * pyval))
    (records : list pyval) (w : list request) :
  let r := elevation_request points in
  el_request points records batch w =
    (match results_of (http (length w) r) ≫= iterate with
     | Raise e => Raise e
     | Ok items => Ok (records ++ items)
     end, w ++ [r]).
Proof.
  intros r. unfold el_request. rewrite io_bind_run.
  unfold requests_get at 1. fold (elevation_request points). fold r.
  rewrite io_bind_run. unfold pure at 1.
  destruct (results_of (http (length w) r)) as [e|results]; [reflexivity |].
  cbn [mbind result_bind]. rewrite io_bind_run. unfold pure at 1.
  destruct (iterate results); reflexivity.
Qed.

Lemma app_replicate_S {A} (w : list A) (x : A) (n : nat) :
  (w ++ [x]) ++ replicate n x = w ++ replicate (S n) x.
Proof. rewrite <- app_assoc. reflexivity. Qed.

Lemma length_snoc_add {A} (w : list A) (x : A) (i : nat) :
  (length (w ++ [x]) + i = length w + S i)%nat.
Proof. rewrite length_app. simpl. lia. Qed.

(** The loop stops at the first body without [results], with that body as
    the detail of the error. *)
Lemma el_loop_missing_results (points : list (pyval * pyval))
    (bs : list (list (pyval * pyval))) (k : nat) :
  let r := elevation_request points in
  ∀ (records : list pyval) (w : list request),
    (k < length bs)%nat →
    (∀ i, (i < k)%nat →
          raised (results_of (http (length w + i) r) ≫= iterate) = false) →
    contains "results" (http (length w + k) r) = Ok false →
    for_each bs (el_request points) records w =
      (Raise (ValueError (http (length w + k) r)), w ++ replicate (S k) r).
Proof.
  intros r. revert k.
  induction bs as [|batch bs IH]; intros k records w Hk Hbefore Hmiss.
  - simpl in Hk. lia.
  - cbn [for_each]. rewrite io_bind_run, el_request_run. fold r.
    destruct k as [|k].
    + rewrite Nat.add_0_r in *.
      rewrite (results_of_missing _ Hmiss). reflexivity.
    + pose proof (Hbefore 0%nat ltac:(lia)) as Hfirst.
      rewrite Nat.add_0_r in Hfirst.
      destruct (results_of (http (length w) r) ≫= iterate) as [e|items];
        [discriminate |].
      rewrite (IH k (records ++ items) (w ++ [r])).
      * rewrite length_snoc_add, app_replicate_S. reflexivity.
      * simpl in Hk. lia.
      * intros i Hi. rewrite length_snoc_add. apply Hbefore. lia.
      * rewrite length_snoc_add. exact Hmiss.
Qed.

(** When the loop ends normally, it has sent the same request once per
    batch and every body had [results]. *)
Lemma el_loop_Ok (points : list (pyval * pyval))
    (bs : list (list (pyval * pyval))) :
  let r := elevation_request points in
  ∀ (records all : list pyval) (w w' : list request),
    for_each bs (el_request points) records w = (Ok all, w') →
    w' = w ++ replicate (length bs) r ∧
    ∀ i, (i < length bs)%nat →
         ∃ results, results_of (http (length w + i) r) = Ok results.
Proof.
  intros r.
  induction bs as [|batch bs IH]; intros records all w w' Hrun.
  - simpl in Hrun. injection Hrun as _ <-. split.
    + simpl. rewrite app_nil_r. reflexivity.
    + intros i Hi. simpl in Hi. lia.
  - cbn [for_each] in Hrun. rewrite io_bind_run, el_request_run in Hrun.
    fold r in Hrun.
    destruct (results_of (http (length w) r)) as [e|results] eqn:Hres;
      [discriminate |].
    cbn [mbind result_bind] in Hrun.
    destruct (iterate results) as [e|items]; [discriminate |].
    apply IH in Hrun. destruct Hrun as [-> Hall]. split.
    + simpl. rewrite app_replicate_S. reflexivity.
    + intros [|i] Hi.
      * rewrite Nat.add_0_r. eauto.
      * specialize (Hall i ltac:(simpl in Hi; lia)).
        rewrite length_snoc_add in Hall. exact Hall.
Qed.

Lemma batches_256 (points : list (pyval * pyval)) :
  batches points 256 =
    Ok (map (λ i, slice points i (i + 256)) (range_step (length points) 256)).
Proof. reflexivity. Qed.

Lemma batches_256_length (points : list (pyval * pyval)) :
  ∃ bs, batches points 256 = Ok bs ∧ length bs = rounds (length points).
Proof.
  eexists. split; [apply batches_256 |].
  unfold range_step. rewrite !length_map, length_seq. reflexivity.
Qed.

(** [el_data] raises [ValueError] with the whole body at the first body
    without [results]. *)
Lemma el_data_missing_results (points : list (pyval * pyval)) (k : nat)
    (w : list request) :
  let r := elevation_request points in
  (k < rounds (length points))%nat →
  (∀ i, (i < k)%nat →
        raised (results_of (http (length w + i) r) ≫= iterate) = false) →
  contains "results" (http (length w + k) r) = Ok false →
  el_data points w =
    (Raise (ValueError (http (length w + k) r)), w ++ replicate (S k) r).
Proof.
  intros r Hk Hbefore Hmiss.
  destruct (batches_256_length points) as (bs & Hbs & Hlen).
  unfold el_data. rewrite io_bind_run. unfold pure at 1. rewrite Hbs.
  rewrite io_bind_run.
  rewrite (el_loop_missing_results points bs k); try assumption.
  - reflexivity.
  - rewrite Hlen. exact Hk.
Qed.

(** [el_data] returns a table only if every body it received had
    [results]; every one of its requests is the same and carries all the
    points. *)
Lemma el_data_Ok (points : list (pyval * pyval)) (rows : list Elevation.row)
    (w w' : list request) :
  let r := elevation_request points in
  el_data points w = (Ok rows, w') →
  w' = w ++ replicate (rounds (length points)) r ∧
  ∀ i, (i < rounds (length points))%nat →
       ∃ results, results_of (http (length w + i) r) = Ok results.
Proof.
  intros r Hrun.
  destruct (batches_256_length points) as (bs & Hbs & Hlen).
  unfold el_data in Hrun. rewrite io_bind_run in Hrun.
  unfold pure at 1 in Hrun. rewrite Hbs in Hrun.
  rewrite io_bind_run in Hrun.
  destruct (for_each bs (el_request points) [] w) as [[e|all] w1] eqn:Hloop;
    [discriminate |].
  apply el_loop_Ok in Hloop. destruct Hloop as [-> Hall].
  rewrite Hlen in *.
  unfold pure in Hrun. injection Hrun as _ <-.
  split; [reflexivity | exact Hall].
Qed.
End retrieval_properties.

(** * The module on concrete inputs *)

Section concrete.
Import Examples.

(** ** Timestamps *)


(** The sub-second part of a date is lost on the way. *)
Example round_trip_truncates :
  dateToTimestamp (clock := Sample.eastern) (Some summer_date)
    ≫= timestampToDate (clock := Sample.eastern)
  = Ok (Some (whole_seconds summer_date)).
Proof. vm_compute. reflexivity. Qed.


(** ** The snow parser *)

Example parse_snow_record :
  parse_snow (numerals := Sample.numerals) (clock := Sample.utc) record
  = Ok (row_of (PStr "Ann")).
Proof. vm_compute. reflexivity. Qed.

Example parse_snow_blank_record :
  parse_snow (numerals := Sample.numerals) (clock := Sample.utc) blank_record
  = Ok (row_of (PStr "Ann B.")).
Proof. vm_compute. reflexivity. Qed.

(** The record with [location: [10.0, 20.0]] has [lat: 20.0] and
    [long: 10.0]. *)
Lemma parse_snow_swaps_location_witness :
  Snow.lat (row_of (PStr "Ann")) = PFloat 20 ∧
  Snow.long (row_of (PStr "Ann")) = PFloat 10.
Proof.
  apply (parse_snow_swaps_location
           (numerals := Sample.numerals) (clock := Sample.utc)
           record
           (PDict [ ("_id", PStr "5a1b");
                    ("reported_at", PInt 1625416215000);
                    ("location", PList [PFloat 10; PFloat 20]);
                    ("type", PStr "snow_conditions");
                    ("details", PList depth_details) ])
           (PFloat 10) (PFloat 20)).
  - reflexivity.
  - reflexivity.
  - exact parse_snow_record.
Defined.


(** The other cases of the depth, on the same record. *)
Example snow_depth_examples :
  let depth details :=
    Snow.snow_depth <$>
      parse_snow (numerals := Sample.numerals) (clock := Sample.utc)
        (record_with ann details) in
  depth (PList [PDict [("snowpack_depth", PStr "undefined")]]) = Ok None ∧
  depth (PList [PDict [("snowpack_depth", PNone)]]) = Ok None ∧
  depth (PList [PDict []]) = Ok None ∧
  depth (PList [PNone]) = Ok None ∧
  depth (PList []) = Ok None ∧
  depth (PList [PDict [("snowpack_depth", PFloat 3)]]) = Ok (Some 3%Q) ∧
  depth (PList [PDict [("snowpack_depth", PStr "deep")]])
  = Raise (ValueError (PStr "could not convert string to float")).
Proof. vm_compute. repeat split. Qed.



(** ** Retrieval *)


(** What the loop of [intervals] yields once [stops] stands for 2 and for
    3: the end points, and the end points with the middle. *)
Example intervals_loop_bound :
  intervals_loop 3 (PInt 0) (PInt 1) (PInt 2) (PInt 0)
  = [Ok (PFloat 0); Ok (PFloat 1)] ∧
  intervals_loop 4 (PFloat (1 # 2)) (PFloat (5 # 2)) (PInt 3) (PInt 0)
  = [Ok (PFloat (1 # 2)); Ok (PFloat (3 # 2)); Ok (PFloat (5 # 2))] ∧
  intervals_loop 2 (PInt 0) (PInt 1) (PInt 1) (PInt 0)
  = [Raise ZeroDivisionError].
Proof. vm_compute. repeat split. Qed.

(** C2, on the code.  For the box with corners (0, 0) and (1, 1) and a grid
    size of 2, the generator raises [NameError] at its first step, on both
    axes, and the grid loops end with that exception: no lattice point is
    produced. *)
Theorem grid_generation_raises :
  intervals (PInt 0) (PInt 1) (PInt 2) = [Raise (NameError "stops")] ∧
  run (grid unit_box (PInt 2)) = (Raise (NameError "stops"), []).
Proof. split; reflexivity. Qed.

(** C1, on the code.  For 257 points [el_data] issues two requests, and the
    [locations] of each is built from all 257 points, not from the batch of
    256 or the batch of 1 the round is for. *)
Theorem el_data_sends_every_point :
  let sent :=
    (run (el_data (printing := Sample.printing) (config := Sample.config)
            (network := Sample.answering empty_results) points257)).2 in
  let all := locations (printing := Sample.printing) points257 in
  batches points257 256
    = Ok [slice points257 0 256; slice points257 256 512] ∧
  map (λ r, params r !! "locations") sent = [Some (PStr all); Some (PStr all)] ∧
  all ≠ locations (printing := Sample.printing) (slice points257 0 256) ∧
  all ≠ locations (printing := Sample.printing) (slice points257 256 512).
Proof.
  cbv zeta. split; [vm_compute; reflexivity |].
  split; [vm_compute; reflexivity |].
  split; intros Heq; apply (f_equal String.length) in Heq;
    vm_compute in Heq; discriminate.
Qed.

(** C5, on the code.  When the services answer [{"error": "bad"}],
    [snow_data] and [el_data] raise [ValueError] with that body, and
    [average_elevation] raises [NameError] without issuing its request. *)
Theorem missing_results_on_bad_body :
  run (snow_data (numerals := Sample.numerals) (clock := Sample.utc)
         (network := Sample.answering bad_body)
         (PInt 100) None None PNone true)
  = (Raise (ValueError bad_body),
     [timeline_request (PInt 100) None None ∅]) ∧
  run (el_data (printing := Sample.printing) (config := Sample.config)
         (network := Sample.answering bad_body) [(PInt 0, PInt 0)])
  = (Raise (ValueError bad_body),
     [elevation_request (printing := Sample.printing)
        (config := Sample.config) [(PInt 0, PInt 0)]]) ∧
  run (average_elevation (printing := Sample.printing)
         (config := Sample.config) (network := Sample.answering bad_body)
         unit_box (PInt 2))
  = (Raise (NameError "stops"), []).
Proof.
  split; [| split].
  - apply (snow_data_missing_results
             (numerals := Sample.numerals) (clock := Sample.utc)
             (network := Sample.answering bad_body)
             (PInt 100) None None PNone true None None ∅ []);
      reflexivity.
  - apply (el_data_missing_results
             (printing := Sample.printing) (config := Sample.config)
             (network := Sample.answering bad_body)
             [(PInt 0, PInt 0)] 0 []).
    + vm_compute. lia.
    + intros i Hi. lia.
    + reflexivity.
  - reflexivity.
Qed.
End concrete.

(** * Further properties *)

(** ** Batches *)

Lemma firstn_add_skipn {A} (s t : nat) (l : list A) :
  firstn (s + t) l = firstn s l ++ firstn t (skipn s l).
Proof.
  revert l. induction s as [|s IH]; intros l; [reflexivity |].
  destruct l as [|x l]; simpl.
  - destruct t; reflexivity.
  - rewrite IH. reflexivity.
Qed.

Lemma slice_step {A} (lst : list A) (i s : nat) :
  slice lst i (i + s) = firstn s (skipn i lst).
Proof. unfold slice. replace (i + s - i)%nat with s by lia. reflexivity. Qed.

(** The slices at [a * s], [(a + 1) * s], ... put end to end. *)
Lemma concat_slices {A} (lst : list A) (s m a : nat) :
  concat (map (λ i, slice lst i (i + s)) (map (λ k, k * s)%nat (seq a m)))
  = firstn (m * s) (skipn (a * s) lst).
Proof.
  revert a. induction m as [|m IH]; intros a; [reflexivity |].
  cbn [seq map concat]. rewrite IH, slice_step.
  replace (S m * s)%nat with (s + m * s)%nat by lia.
  rewrite firstn_add_skipn. f_equal. f_equal.
  replace (S a * s)%nat with (s + a * s)%nat by lia.
  rewrite <- skipn_skipn. reflexivity.
Qed.

Lemma ceil_div_covers (n s : nat) :
  (0 < s)%nat → (n <= (n + s - 1) / s * s)%nat.
Proof.
  intros Hs.
  pose proof (Nat.div_mod_eq (n + s - 1) s) as Hdm.
  pose proof (Nat.mod_upper_bound (n + s - 1) s ltac:(lia)) as Hr.
  nia.
Qed.

Lemma below_ceil_div (n s i : nat) :
  (0 < s)%nat → (i < (n + s - 1) / s)%nat → (i * s < n)%nat.
Proof.
  intros Hs Hi.
  pose proof (Nat.div_mod_eq (n + s - 1) s) as Hdm.
  pose proof (Nat.mod_upper_bound (n + s - 1) s ltac:(lia)) as Hr.
  nia.
Qed.

Lemma batches_positive {A} (lst : list A) (size : Z) :
  0 < size →
  batches lst size =
    Ok (map (λ i, slice lst i (i + Z.to_nat size))
            (range_step (length lst) (Z.to_nat size))).
Proof.
  intros Hs. unfold batches.
  rewrite (proj2 (Z.eqb_neq size 0)) by lia.
  rewrite (proj2 (Z.ltb_ge size 0)) by lia. reflexivity.
Qed.

(** X1.  Putting the batches end to end gives the list back: no element is
    lost, repeated or moved. *)
Theorem batches_concat {A} (lst : list A) (size : Z) :
  0 < size → ∃ bs, batches lst size = Ok bs ∧ concat bs = lst.
Proof.
  intros Hs. eexists. split; [apply batches_positive, Hs |].
  unfold range_step. rewrite concat_slices. simpl.
  apply firstn_all2. apply ceil_div_covers. lia.
Qed.

(** X2.  There are [ceil(n / size)] batches; batch [i] holds
    [min(size, n - i * size)] elements, so every batch is non-empty, none is
    longer than [size], and only the last can be shorter. *)
Theorem batches_sizes {A} (lst : list A) (size : Z) :
  0 < size →
  let s := Z.to_nat size in
  let n := length lst in
  ∃ bs, batches lst size = Ok bs ∧
        length bs = ((n + s - 1) / s)%nat ∧
        ∀ i b, bs !! i = Some b →
               length b = Nat.min s (n - i * s) ∧ (0 < length b)%nat ∧
               (S i < length bs → length b = s)%nat.
Proof.
  intros Hs s n. eexists. split; [apply batches_positive, Hs |].
  fold s. fold n. unfold range_step.
  split; [rewrite !length_map, length_seq; reflexivity |].
  intros i b Hb. rewrite !length_map, length_seq.
  rewrite !list_lookup_fmap in Hb.
  destruct (seq 0 ((n + s - 1) / s) !! i) as [k|] eqn:Hk; [| discriminate].
  apply lookup_seq in Hk. destruct Hk as [-> Hi]. simpl in Hb.
  injection Hb as <-. rewrite slice_step.
  rewrite length_firstn, length_skipn. fold n.
  assert (0 < s)%nat by (unfold s; lia).
  pose proof (below_ceil_div n s i ltac:(lia) Hi).
  split; [reflexivity |]. split; [lia |].
  intros Hnext. pose proof (below_ceil_div n s (S i) ltac:(lia) Hnext). lia.
Qed.

(** X3.  The edges of [batches]: a size of zero raises [ValueError] (from
    [range]); a negative size yields no batch at all, whatever the list; an
    empty list yields no batch. *)
Theorem batches_edges {A} (lst : list A) :
  batches lst 0 = Raise (ValueError (PStr "range() arg 3 must not be zero")) ∧
  (∀ size, size < 0 → batches lst size = Ok []) ∧
  (∀ size, 0 < size → batches (@nil A) size = Ok []).
Proof.
  split; [reflexivity |]. split.
  - intros size Hs. unfold batches.
    rewrite (proj2 (Z.eqb_neq size 0)) by lia.
    rewrite (proj2 (Z.ltb_lt size 0)) by lia. reflexivity.
  - intros size Hs. rewrite batches_positive by exact Hs.
    unfold range_step. simpl length.
    replace ((0 + Z.to_nat size - 1) / Z.to_nat size)%nat with 0%nat.
    + reflexivity.
    + symmetry. apply Nat.div_small. lia.
Qed.

(** ** Request parameters, again *)

(** X4.  [removeEmptyParams] changes nothing in a dictionary without [None],
    and a second pass changes nothing after the first. *)
Theorem removeEmptyParams_idempotent (dict : gmap string pyval) :
  ((∀ k, dict !! k ≠ Some PNone) → removeEmptyParams dict = dict) ∧
  removeEmptyParams (removeEmptyParams dict) = removeEmptyParams dict.
Proof.
  assert (Hid : ∀ m : gmap string pyval,
             (∀ k, m !! k ≠ Some PNone) → removeEmptyParams m = m).
  { intros m Hm. unfold removeEmptyParams. apply map_filter_id.
    intros k v Hk. simpl. intros ->. exact (Hm k Hk). }
  split; [apply Hid |]. apply Hid. intros k Hk.
  apply removeEmptyParams_lookup in Hk. destruct Hk as [_ Hne].
  apply Hne. reflexivity.
Qed.

(** X5.  The four corners of a complete box, and nothing else: extra keys of
    the box are ignored. *)
Theorem make_box_corners (box : list (string * pyval))
    (ymax xmax ymin xmin : pyval) :
  dict_lookup box "ymax" = Some ymax →
  dict_lookup box "xmax" = Some xmax →
  dict_lookup box "ymin" = Some ymin →
  dict_lookup box "xmin" = Some xmin →
  ∃ m, make_box (PDict box) = Ok m ∧
       m !! "north_east_lat" = Some ymax ∧
       m !! "north_east_lng" = Some xmax ∧
       m !! "south_west_lat" = Some ymin ∧
       m !! "south_west_lng" = Some xmin ∧
       ∀ k, k ∉ box_keys → m !! k = None.
Proof.
  intros Hymax Hxmax Hymin Hxmin. unfold make_box. cbn [is_none getitem_key].
  rewrite Hymax, Hxmax, Hymin, Hxmin. cbn [mbind result_bind mret result_ret].
  eexists. split; [reflexivity |].
  repeat split.
  - intros k Hk. unfold box_keys in Hk.
    rewrite !not_elem_of_cons in Hk.
    destruct Hk as (H1 & H2 & H3 & H4 & _).
    rewrite !lookup_insert_ne by congruence. apply lookup_empty.
Qed.

(** X6.  A box of [None] gives no parameter; a box that lacks a corner raises
    [KeyError] for the first missing key in the order [ymax], [xmax],
    [ymin], [xmin], and returns no partial mapping. *)
Theorem make_box_incomplete (box : list (string * pyval)) :
  make_box PNone = Ok ∅ ∧
  (dict_lookup box "ymax" = None →
   make_box (PDict box) = Raise (KeyError (PStr "ymax"))) ∧
  (is_Some (dict_lookup box "ymax") → dict_lookup box "xmax" = None →
   make_box (PDict box) = Raise (KeyError (PStr "xmax"))) ∧
  (is_Some (dict_lookup box "ymax") → is_Some (dict_lookup box "xmax") →
   dict_lookup box "ymin" = None →
   make_box (PDict box) = Raise (KeyError (PStr "ymin"))) ∧
  (is_Some (dict_lookup box "ymax") → is_Some (dict_lookup box "xmax") →
   is_Some (dict_lookup box "ymin") → dict_lookup box "xmin" = None →
   make_box (PDict box) = Raise (KeyError (PStr "xmin"))) ∧
  (∀ m, make_box (PDict box) = Ok m →
        is_Some (dict_lookup box "ymax") ∧ is_Some (dict_lookup box "xmax") ∧
        is_Some (dict_lookup box "ymin") ∧ is_Some (dict_lookup box "xmin")).
Proof.
  split; [reflexivity |]. unfold make_box. cbn [is_none getitem_key].
  destruct (dict_lookup box "ymax") as [ymax|];
    destruct (dict_lookup box "xmax") as [xmax|];
    destruct (dict_lookup box "ymin") as [ymin|];
    destruct (dict_lookup box "xmin") as [xmin|];
    cbn [mbind result_bind mret result_ret];
    repeat split; intros; try discriminate; try reflexivity;
    try (eexists; reflexivity);
    repeat match goal with
           | H : is_Some None |- _ => destruct H; discriminate
           end.
Qed.


Lemma removeEmptyParams_lookup_total (dict : gmap string pyval) (k : string) :
  removeEmptyParams dict !! k = dict !! k ≫= unless_none.
Proof.
  destruct (dict !! k) as [v|] eqn:Hk; cbn [mbind option_bind].
  - unfold unless_none. destruct (is_none v) eqn:Hv.
    + apply removeEmptyParams_absent. right. destruct v; try discriminate.
      exact Hk.
    + apply removeEmptyParams_lookup. split; [exact Hk |].
      intros ->. discriminate.
  - apply removeEmptyParams_absent. left. exact Hk.
Qed.

Lemma make_box_keys (box : pyval) (corners : gmap string pyval) (k : string) :
  make_box box = Ok corners → k ∉ box_keys → corners !! k = None.
Proof.
  intros Hb Hk. unfold box_keys in Hk. rewrite !not_elem_of_cons in Hk.
  destruct Hk as (H1 & H2 & H3 & H4 & _).
  unfold make_box in Hb. destruct (is_none box).
  - injection Hb as <-. apply lookup_empty.
  - apply bind_Ok in Hb. destruct Hb as (ymax & _ & Hb).
    apply bind_Ok in Hb. destruct Hb as (xmax & _ & Hb).
    apply bind_Ok in Hb. destruct Hb as (ymin & _ & Hb).
    apply bind_Ok in Hb. destruct Hb as (xmin & _ & Hb).
    injection Hb as <-.
    rewrite !lookup_insert_ne by congruence. apply lookup_empty.
Qed.

(** X7.  What [snow_data] puts in its request: [publisher] and [obs_type]
    always; [limit], [since] and [before] unless they are [None]; the corners
    of the box that are not [None]; and no other key. *)
Theorem snow_params_content (limit box : pyval) (since before : option Z)
    (corners : gmap string pyval) :
  make_box box = Ok corners →
  let p := snow_params limit since before corners in
  p !! "publisher" = Some (PStr "all") ∧
  p !! "obs_type" = Some (PStr "snow_conditions") ∧
  p !! "limit" = unless_none limit ∧
  p !! "since" = PInt <$> since ∧
  p !! "before" = PInt <$> before ∧
  (∀ k, k ∈ box_keys → p !! k = corners !! k ≫= unless_none) ∧
  (∀ k, k ∉ box_keys →
        k ∉ ["publisher"; "obs_type"; "limit"; "since"; "before"] →
        p !! k = None).
Proof.
  intros Hb p.
  assert (Hfixed : ∀ k, k ∉ box_keys →
            p !! k = (<["before" := opt_int before]>
                       (<["since" := opt_int since]>
                        (<["limit" := limit]>
                         (<["obs_type" := PStr "snow_conditions"]>
                          (<["publisher" := PStr "all"]>
                             (∅ : gmap string pyval))))) !! k)
                     ≫= unless_none).
  { intros k Hk. unfold p, snow_params.
    rewrite removeEmptyParams_lookup_total, lookup_union_r
      by exact (make_box_keys _ _ _ Hb Hk). reflexivity. }
  assert (Hnot : ∀ k,
             In k ["publisher"; "obs_type"; "limit"; "since"; "before"] →
             k ∉ box_keys).
  { intros k Hin Hk. unfold box_keys in Hk. rewrite !elem_of_cons in Hk.
    simpl in Hin.
    destruct Hin as [<- | [<- | [<- | [<- | [<- | []]]]]];
      destruct Hk as [Hk | [Hk | [Hk | [Hk | Hk]]]];
      try discriminate; inversion Hk. }
  split; [rewrite Hfixed by (apply Hnot; simpl; tauto); reflexivity |].
  split; [rewrite Hfixed by (apply Hnot; simpl; tauto); reflexivity |].
  split; [rewrite Hfixed by (apply Hnot; simpl; tauto); reflexivity |].
  split.
  { rewrite Hfixed by (apply Hnot; simpl; tauto).
    rewrite lookup_insert_ne, lookup_insert_eq by discriminate.
    destruct since; reflexivity. }
  split.
  { rewrite Hfixed by (apply Hnot; simpl; tauto).
    rewrite lookup_insert_eq. destruct before; reflexivity. }
  split.
  - intros k Hk. unfold p, snow_params.
    rewrite removeEmptyParams_lookup_total.
    assert (Hbase : (<["before" := opt_int before]>
                       (<["since" := opt_int since]>
                        (<["limit" := limit]>
                         (<["obs_type" := PStr "snow_conditions"]>
                          (<["publisher" := PStr "all"]>
                             (∅ : gmap string pyval))))) !! k) = None).
    { unfold box_keys in Hk. rewrite !elem_of_cons in Hk.
      destruct Hk as [-> | [-> | [-> | [-> | Hk]]]]; [| | | | inversion Hk];
        rewrite !lookup_insert_ne by discriminate; apply lookup_empty. }
    rewrite lookup_union, Hbase.
    destruct (corners !! k); reflexivity.
  - intros k Hk Hfix. rewrite Hfixed by exact Hk.
    rewrite !not_elem_of_cons in Hfix.
    destruct Hfix as (H1 & H2 & H3 & H4 & H5 & _).
    rewrite !lookup_insert_ne by congruence. rewrite lookup_empty. reflexivity.
Qed.

(** ** Timestamps *)


(** ** The snow parser *)

Section parse_snow_more.
Context {numerals : Numerals} {clock : Clock}.

(** X9.  A row is returned only for a record that is a dictionary with
    dictionaries under [observation] and [actor]; its [id] and [type] are
    the observation's [_id] and [type] as they are, its [timestamp] is
    [int(reported_at)], and its [date] is that timestamp converted, never
    [None]. *)
Theorem parse_snow_fields (record : pyval) (row : Snow.row) :
  parse_snow record = Ok row →
  ∃ top obs actor reported,
    record = PDict top ∧
    dict_lookup top "observation" = Some (PDict obs) ∧
    dict_lookup top "actor" = Some (PDict actor) ∧
    dict_lookup obs "_id" = Some (Snow.id row) ∧
    dict_lookup obs "type" = Some (Snow.type row) ∧
    dict_lookup obs "reported_at" = Some reported ∧
    py_int reported = Ok (Snow.timestamp row) ∧
    timestampToDate (Some (Snow.timestamp row)) = Ok (Snow.date row) ∧
    is_Some (Snow.date row) ∧
    is_Some (dict_lookup obs "location").
Proof.
  intros Hrow. apply parse_snow_Ok in Hrow.
  destruct Hrow as (obs & actor & raw & reported & location & Hobs & Hactor
                    & Hraw & Hauthor & Hid & Hrep & Hts & Hdate & Hloc & _
                    & _ & Htype & _).
  destruct record as [| | | | | |top|]; try discriminate.
  cbn [getitem_key] in Hobs, Hactor.
  destruct (dict_lookup top "observation") as [obs'|] eqn:Htop;
    [| discriminate].
  injection Hobs as ->.
  destruct (dict_lookup top "actor") as [actor'|] eqn:Htop'; [| discriminate].
  injection Hactor as ->.
  destruct actor as [| | | | | |a|]; try discriminate.
  destruct obs as [| | | | | |o|]; try discriminate.
  cbn [getitem_key] in Hid, Hrep, Hloc, Htype.
  destruct (dict_lookup o "_id") as [x|] eqn:Eid;
    [injection Hid as -> | discriminate].
  destruct (dict_lookup o "type") as [x|] eqn:Etype;
    [injection Htype as -> | discriminate].
  destruct (dict_lookup o "reported_at") as [x|] eqn:Erep;
    [injection Hrep as -> | discriminate].
  destruct (dict_lookup o "location") as [x|] eqn:Eloc; [| discriminate].
  exists top, o, a, reported.
  do 7 (split; [first [reflexivity | assumption] |]).
  split; [exact Hdate |]. split.
  - unfold timestampToDate in Hdate. apply fmap_Ok in Hdate.
    destruct Hdate as (d & _ & <-). eexists. reflexivity.
  - rewrite Eloc. eexists. reflexivity.
Qed.

(** X10.  A record without [observation] raises [KeyError] for it; one with
    [observation] and without [actor] raises [KeyError] for [actor]; a record
    that is no dictionary raises [TypeError]. *)
Theorem parse_snow_missing_key (top : list (string * pyval)) :
  (dict_lookup top "observation" = None →
   parse_snow (PDict top) = Raise (KeyError (PStr "observation"))) ∧
  (is_Some (dict_lookup top "observation") → dict_lookup top "actor" = None →
   parse_snow (PDict top) = Raise (KeyError (PStr "actor"))) ∧
  (∀ record, (∀ d, record ≠ PDict d) → parse_snow record = Raise TypeError).
Proof.
  repeat split.
  - intros Hobs. unfold parse_snow. cbn [getitem_key]. rewrite Hobs.
    reflexivity.
  - intros [obs Hobs] Hactor. unfold parse_snow. cbn [getitem_key].
    rewrite Hobs, Hactor. reflexivity.
  - intros record Hrec. destruct record; try reflexivity.
    exfalso. eapply Hrec. reflexivity.
Qed.

(** X11.  The default [[{}]] stands in for [details] only when the key is
    absent: a [details] that is present and is no list, string or dictionary
    (JSON [null], a number, a boolean) makes [len] raise [TypeError]. *)
Theorem parse_snow_details_not_sized
    (record actor : pyval) (obs : list (string * pyval)) (details : pyval) :
  getitem_key record "observation" = Ok (PDict obs) →
  getitem_key record "actor" = Ok actor →
  dict_lookup obs "details" = Some details →
  (∀ l, details ≠ PList l) → (∀ s, details ≠ PStr s) →
  (∀ d, details ≠ PDict d) →
  parse_snow record = Raise TypeError.
Proof.
  intros Hobs Hactor Hd Hl Hs Hdict. unfold parse_snow.
  rewrite Hobs, Hactor. cbn [mbind result_bind].
  unfold raw_snow_depth. cbn [method_get]. rewrite Hd.
  cbn [mbind result_bind].
  destruct details; try reflexivity; exfalso;
    [eapply Hs | eapply Hl | eapply Hdict]; reflexivity.
Qed.
End parse_snow_more.

(** ** Comprehensions *)

Lemma comprehension_Ok {A B} (f : A → result B) (xs : list A) (ys : list B) :
  comprehension f xs = Ok ys ↔ Forall2 (λ x y, f x = Ok y) xs ys.
Proof.
  revert ys. induction xs as [|x xs IH]; intros ys; simpl.
  - split.
    + intros Hys. injection Hys as <-. constructor.
    + intros Hall. inversion Hall. reflexivity.
  - split.
    + intros Hys. apply bind_Ok in Hys. destruct Hys as (y & Hy & Hys).
      apply bind_Ok in Hys. destruct Hys as (ys' & Hys' & Hret).
      injection Hret as <-. constructor; [exact Hy | apply IH, Hys'].
    + intros Hall. inversion Hall as [|x' y xs' ys' Hy Hrest]; subst.
      rewrite Hy. cbn [mbind result_bind].
      rewrite (proj2 (IH ys') Hrest). reflexivity.
Qed.

Lemma comprehension_Raise {A B} (f : A → result B)
    (good : list A) (bad : A) (rest : list A) (e : exn) :
  Forall (λ x, raised (f x) = false) good → f bad = Raise e →
  comprehension f (good ++ bad :: rest) = Raise e.
Proof.
  intros Hgood Hbad. induction Hgood as [|x good Hx _ IH]; simpl.
  - rewrite Hbad. reflexivity.
  - destruct (f x); [discriminate |]. cbn [mbind result_bind].
    rewrite IH. reflexivity.
Qed.

(** ** Snow data *)

Section snow_data_more.
Context {numerals : Numerals} {clock : Clock} {network : Network}.

(** The whole of [snow_data] once the parameters are built. *)
Lemma snow_data_run
    (limit : pyval) (start end_ : option datetime) (box : pyval)
    (filter : bool) (since before : option Z) (corners : gmap string pyval)
    (w : list request) :
  dateToTimestamp start = Ok since →
  dateToTimestamp end_ = Ok before →
  make_box box = Ok corners →
  let r := timeline_request limit since before corners in
  snow_data limit start end_ box filter w =
    (parsed ← (records ← results_of (http (length w) r);
               items ← iterate records;
               comprehension parse_snow items);
     mret (if filter
           then List.filter (λ row, negb (Snow.has_null row)) parsed
           else parsed),
     w ++ [r]).
Proof.
  intros Hs He Hb r.
  unfold snow_data. rewrite io_bind_run. unfold pure at 1. rewrite Hs.
  rewrite io_bind_run. unfold pure at 1. rewrite He.
  rewrite io_bind_run. unfold pure at 1. rewrite Hb.
  rewrite io_bind_run. unfold requests_get at 1.
  fold (timeline_request limit since before corners). fold r.
  rewrite io_bind_run. unfold pure at 1.
  destruct (results_of (http (length w) r)) as [e|records]; [reflexivity |].
  rewrite io_bind_run. unfold pure at 1. cbn [mbind result_bind].
  destruct (iterate records) as [e|items]; [reflexivity |].
  rewrite io_bind_run. unfold pure at 1. cbn [mbind result_bind].
  destruct (comprehension parse_snow items); reflexivity.
Qed.

(** X12.  Once the parameters are built, [snow_data] issues exactly one
    request, to the timeline address with the version header, whatever the
    body answered and whether or not the call then raises. *)
Theorem snow_data_one_request
    (limit : pyval) (start end_ : option datetime) (box : pyval)
    (filter : bool) (since before : option Z) (corners : gmap string pyval)
    (w : list request) :
  dateToTimestamp start = Ok since →
  dateToTimestamp end_ = Ok before →
  make_box box = Ok corners →
  ∃ r, (snow_data limit start end_ box filter w).2 = w ++ [r] ∧
       url r = BASE_URL ∧ headers r = HEADER ∧
       params r = snow_params limit since before corners.
Proof.
  intros Hs He Hb.
  rewrite (snow_data_run _ _ _ _ _ _ _ _ _ Hs He Hb).
  eexists. split; [reflexivity |]. repeat split.
Qed.

(** X13.  With a body whose [results] is a list, the unfiltered table has one
    row per record, in order, each the parse of its record; and one record
    that fails to parse makes the whole call raise that record's exception,
    with the filter on or off: no record is skipped. *)
Theorem snow_data_rows
    (limit : pyval) (start end_ : option datetime) (box : pyval)
    (since before : option Z) (corners : gmap string pyval)
    (w : list request) (items : list pyval) :
  dateToTimestamp start = Ok since →
  dateToTimestamp end_ = Ok before →
  make_box box = Ok corners →
  let r := timeline_request limit since before corners in
  results_of (http (length w) r) = Ok (PList items) →
  (∀ rows, snow_data limit start end_ box false w = (Ok rows, w ++ [r]) ↔
           Forall2 (λ record row, parse_snow record = Ok row) items rows) ∧
  (∀ good bad rest e filter,
     items = good ++ bad :: rest →
     Forall (λ record, raised (parse_snow record) = false) good →
     parse_snow bad = Raise e →
     snow_data limit start end_ box filter w = (Raise e, w ++ [r])).
Proof.
  intros Hs He Hb r Hres.
  split.
  - intros rows. rewrite (snow_data_run _ _ _ _ _ _ _ _ _ Hs He Hb).
    fold r. rewrite Hres. cbn [mbind result_bind iterate].
    rewrite <- comprehension_Ok.
    destruct (comprehension parse_snow items) as [e|parsed];
      cbn [mbind result_bind mret result_ret].
    + split; intros Heq; discriminate.
    + split; intros Heq; injection Heq as ->; reflexivity.
  - intros good bad rest e filter -> Hgood Hbad.
    rewrite (snow_data_run _ _ _ _ _ _ _ _ _ Hs He Hb).
    fold r. rewrite Hres. cbn [mbind result_bind iterate].
    rewrite (comprehension_Raise _ _ _ _ _ Hgood Hbad). reflexivity.
Qed.

(** X14.  The filter only removes rows: the filtered table is the unfiltered
    one without its rows that have a missing value, in the same order, and
    no row of it has a missing [snow_depth], [author_name] or other field. *)
Theorem snow_data_filter
    (limit : pyval) (start end_ : option datetime) (box : pyval)
    (w w' : list request) (rows : list Snow.row) :
  snow_data limit start end_ box false w = (Ok rows, w') →
  let kept := List.filter (λ row, negb (Snow.has_null row)) rows in
  snow_data limit start end_ box true w = (Ok kept, w') ∧
  Forall (λ row, Snow.has_null row = false) kept ∧
  (∀ row, In row kept → is_Some (Snow.snow_depth row) ∧
                        Snow.author_name row ≠ PNone).
Proof.
  intros Hrun kept.
  assert (Hkept : Forall (λ row, Snow.has_null row = false) kept).
  { apply List.Forall_forall. intros row Hin. unfold kept in Hin.
    apply filter_In in Hin. destruct Hin as [_ Hn].
    apply negb_true_iff in Hn. exact Hn. }
  split; [| split; [exact Hkept |]].
  - unfold snow_data in *.
    repeat (rewrite io_bind_run in Hrun; rewrite io_bind_run).
    unfold pure at 1 in Hrun. unfold pure at 1.
    destruct (dateToTimestamp start) as [e|since]; [discriminate |].
    repeat (rewrite io_bind_run in Hrun; rewrite io_bind_run).
    unfold pure at 1 in Hrun. unfold pure at 1.
    destruct (dateToTimestamp end_) as [e|before]; [discriminate |].
    repeat (rewrite io_bind_run in Hrun; rewrite io_bind_run).
    unfold pure at 1 in Hrun. unfold pure at 1.
    destruct (make_box box) as [e|corners]; [discriminate |].
    repeat (rewrite io_bind_run in Hrun; rewrite io_bind_run).
    unfold requests_get at 1 in Hrun. unfold requests_get at 1.
    repeat (rewrite io_bind_run in Hrun; rewrite io_bind_run).
    unfold pure at 1 in Hrun. unfold pure at 1.
    destruct (results_of _) as [e|records]; [discriminate |].
    repeat (rewrite io_bind_run in Hrun; rewrite io_bind_run).
    unfold pure at 1 in Hrun. unfold pure at 1.
    destruct (iterate records) as [e|items]; [discriminate |].
    repeat (rewrite io_bind_run in Hrun; rewrite io_bind_run).
    unfold pure at 1 in Hrun. unfold pure at 1.
    destruct (comprehension parse_snow items) as [e|parsed]; [discriminate |].
    cbn [mret io_ret] in *. injection Hrun as -> <-. reflexivity.
  - intros row Hin.
    pose proof (proj1 (List.Forall_forall _ _) Hkept row Hin) as Hn.
    unfold Snow.has_null in Hn.
    repeat (apply orb_false_iff in Hn; destruct Hn as [Hn ?]).
    split.
    + destruct (Snow.snow_depth row); [eexists; reflexivity | discriminate].
    + intros Heq. rewrite Heq in Hn. discriminate.
Qed.
End snow_data_more.

(** ** Elevation data *)

Section el_data_more.
Context {printing : Printing} {config : Config} {network : Network}.

(** For no point at all, [el_data] returns the empty table and issues no
    request. *)
Lemma el_data_no_points (w : list request) : el_data [] w = (Ok [], w).
Proof. reflexivity. Qed.

Lemma rounds_zero (n : nat) : rounds n = 0%nat → n = 0%nat.
Proof.
  unfold rounds. intros Hr.
  pose proof (Nat.div_mod_eq (n + 256 - 1) 256) as Hdm.
  pose proof (Nat.mod_upper_bound (n + 256 - 1) 256 ltac:(lia)) as Hm.
  lia.
Qed.

(** The loop when every body has the same records. *)
Lemma el_loop_answered (points : list (pyval * pyval))
    (bs : list (list (pyval * pyval))) (rs : list pyval) :
  let r := elevation_request points in
  ∀ (records : list pyval) (w : list request),
    (∀ i, (i < length bs)%nat →
          results_of (http (length w + i) r) = Ok (PList rs)) →
    for_each bs (el_request points) records w =
      (Ok (records ++ concat (replicate (length bs) rs)),
       w ++ replicate (length bs) r).
Proof.
  intros r. induction bs as [|batch bs IH]; intros records w Hall.
  - simpl. rewrite !app_nil_r. reflexivity.
  - cbn [for_each]. rewrite io_bind_run, el_request_run. fold r.
    pose proof (Hall 0%nat ltac:(simpl; lia)) as H0.
    rewrite Nat.add_0_r in H0. rewrite H0. cbn [mbind result_bind iterate].
    rewrite IH.
    + cbn [length replicate concat].
      rewrite app_replicate_S, <- app_assoc. reflexivity.
    + intros i Hi. rewrite length_snoc_add. apply Hall. simpl. lia.
Qed.

Lemma zip_app_longer {A B} (xs : list A) (ys more : list B) :
  (length xs <= length ys)%nat → zip xs (ys ++ more) = zip xs ys.
Proof.
  revert ys. induction xs as [|x xs IH]; intros ys Hlen; [reflexivity |].
  destruct ys as [|y ys]; simpl in *; [lia |].
  rewrite IH by lia. reflexivity.
Qed.

Lemma rows_of_zip (points : list (pyval * pyval)) (rs es : list pyval) :
  Forall2 (λ record e, getitem_key record "elevation" = Ok e) rs es →
  comprehension
    (λ pr : (pyval * pyval) * pyval,
       fields ← parse_elevation pr.2;
       mret {| Elevation.lat := pr.1.1; Elevation.long := pr.1.2;
               Elevation.parsed := fields |})
    (zip points rs)
  = Ok (zip_with elevation_row points es).
Proof.
  intros Hall.
  set (f := λ pr : (pyval * pyval) * pyval,
              fields ← parse_elevation pr.2;
              mret {| Elevation.lat := pr.1.1; Elevation.long := pr.1.2;
                      Elevation.parsed := fields |}).
  revert points.
  induction Hall as [|record e rs es He _ IH]; intros points.
  - destruct points; reflexivity.
  - destruct points as [|p points]; [reflexivity |].
    cbn [zip_with comprehension].
    assert (Hf : f (p, record) = Ok (elevation_row p e)).
    { unfold f, parse_elevation. cbn [fst snd]. rewrite He. reflexivity. }
    rewrite Hf. cbn [mbind result_bind].
    rewrite IH. reflexivity.
Qed.

(** X15.  When every body carries, in order, at least one record with an
    [elevation] per point, the table has one row per point: the point with
    its own elevation, in the order of the points, however many requests
    were needed; and [ceil(n / 256)] requests were issued. *)
Theorem el_data_answered (points : list (pyval * pyval))
    (rs es : list pyval) (w : list request) :
  let r := elevation_request points in
  (length points <= length rs)%nat →
  (∀ i, (i < rounds (length points))%nat →
        results_of (http (length w + i) r) = Ok (PList rs)) →
  Forall2 (λ record e, getitem_key record "elevation" = Ok e) rs es →
  el_data points w =
    (Ok (zip_with elevation_row points es),
     w ++ replicate (rounds (length points)) r).
Proof.
  intros r Hlen Hans Hes.
  destruct (batches_256_length points) as (bs & Hbs & Hbl).
  unfold el_data. rewrite io_bind_run. unfold pure at 1. rewrite Hbs.
  rewrite io_bind_run.
  rewrite (el_loop_answered points bs rs)
    by (intros i Hi; apply Hans; rewrite <- Hbl; exact Hi).
  rewrite Hbl. unfold pure. cbn [app]. f_equal.
  destruct (rounds (length points)) as [|k] eqn:Hk.
  - apply rounds_zero in Hk. destruct points; [| discriminate].
    reflexivity.
  - cbn [replicate concat]. rewrite zip_app_longer by exact Hlen.
    apply rows_of_zip, Hes.
Qed.

(** X16.  Whatever the service answers, a table [el_data] returns has at most
    one row per point, and its rows carry the first points of the input, in
    order: no coordinate is invented, repeated or moved. *)
Theorem el_data_rows_are_points (points : list (pyval * pyval))
    (rows : list Elevation.row) (w w' : list request) :
  el_data points w = (Ok rows, w') →
  (length rows <= length points)%nat ∧
  map (λ row, (Elevation.lat row, Elevation.long row)) rows
  = firstn (length rows) points.
Proof.
  intros Hrun. unfold el_data in Hrun.
  rewrite io_bind_run in Hrun. unfold pure at 1 in Hrun.
  destruct (batches points 256) as [e|bs]; [discriminate |].
  rewrite io_bind_run in Hrun.
  destruct (for_each bs (el_request points) [] w) as [[e|records] w1];
    [discriminate |].
  unfold pure in Hrun. injection Hrun as Hrows _.
  apply comprehension_Ok in Hrows.
  clear -Hrows. revert records rows Hrows.
  induction points as [|p points IH]; intros records rows Hrows.
  - inversion Hrows. split; [simpl; lia | reflexivity].
  - destruct records as [|record records].
    + inversion Hrows. split; [simpl; lia | reflexivity].
    + inversion Hrows as [|pr row prs rows' Hrow Hrest]; subst.
      destruct (IH _ _ Hrest) as [Hlen Hmap].
      apply bind_Ok in Hrow. destruct Hrow as (fields & _ & Hrow).
      injection Hrow as <-.
      cbn [map length firstn fst snd Elevation.lat Elevation.long].
      split; [lia |]. rewrite Hmap. destruct p; reflexivity.
Qed.
End el_data_more.

(** ** Average elevation *)

Section average_more.
Context {printing : Printing} {config : Config} {network : Network}.

(** X17.  [average_elevation] never returns and never issues its request: it
    raises [TypeError] (or whatever the comparison raises) when the grid size
    cannot be compared with 16, the error of [box['ymin']] or [box['ymax']]
    when the box lacks one of them, and [NameError] for [stops] in every
    other case. *)
Theorem average_elevation_outcome (box grid_size : pyval) (w : list request) :
  average_elevation box grid_size w =
    (Raise
       match py_min grid_size (PInt 16) with
       | Raise e => e
       | Ok _ =>
           match getitem_key box "ymin" with
           | Raise e => e
           | Ok _ =>
               match getitem_key box "ymax" with
               | Raise e => e
               | Ok _ => NameError "stops"
               end
           end
       end, w).
Proof.
  unfold average_elevation. rewrite io_bind_run. unfold pure at 1.
  destruct (py_min grid_size (PInt 16)) as [e|gs]; [reflexivity |].
  rewrite io_bind_run. unfold grid. rewrite io_bind_run. unfold pure at 1.
  destruct (getitem_key box "ymin") as [e|ymin]; [reflexivity |].
  rewrite io_bind_run. unfold pure at 1.
  destruct (getitem_key box "ymax") as [e|ymax]; [reflexivity |].
  rewrite intervals_unbound. reflexivity.
Qed.
End average_more.

(** *** The mean *)




(** ** The loop of [intervals] *)


(** X20.  The other values of [stops]: for 1 the first step divides by
    [stops - 1 = 0] and raises [ZeroDivisionError]; for 0 or less the loop
    yields nothing; and end points that are no numbers raise [TypeError] at
    the first step. *)
Theorem intervals_loop_degenerate (fuel : nat) (start end_ : pyval) :
  (∀ a b, intervals_loop (S fuel) (of_num a) (of_num b) (PInt 1) (PInt 0)
          = [Raise ZeroDivisionError]) ∧
  (∀ n, n <= 0 → intervals_loop (S fuel) start end_ (PInt n) (PInt 0) = []) ∧
  (∀ n, 0 < n → as_num end_ = Raise TypeError →
        intervals_loop (S fuel) start end_ (PInt n) (PInt 0)
        = [Raise TypeError]).
Proof.
  assert (Hlt : ∀ n, py_lt (PInt 0) (PInt n) = Ok (0 <? n)).
  { intros n. unfold py_lt. cbn [as_num mbind result_bind mret result_ret].
    rewrite num_ltb_int. reflexivity. }
  split; [| split].
  - intros a b. rewrite intervals_loop_step by lia.
    unfold lattice_value, num_truediv. reflexivity.
  - intros n Hn. cbn [intervals_loop]. rewrite Hlt.
    rewrite (proj2 (Z.ltb_ge 0 n)) by lia. reflexivity.
  - intros n Hn Hend. cbn [intervals_loop]. rewrite Hlt.
    rewrite (proj2 (Z.ltb_lt 0 n)) by lia.
    assert (Hsub : py_sub end_ start = Raise TypeError)
      by (unfold py_sub; rewrite Hend; reflexivity).
    rewrite Hsub. reflexivity.
Qed.

(** * Further properties on concrete inputs *)

Section concrete_more.
Import Examples.

Lemma batches_concat_witness :
  ∃ bs, batches (seq 0 300) 256 = Ok bs ∧ concat bs = seq 0 300.
Proof. apply batches_concat. lia. Defined.

Lemma batches_sizes_witness :
  ∃ bs, batches (seq 0 300) 256 = Ok bs ∧
        length bs = 2%nat ∧
        ∀ i b, bs !! i = Some b →
               length b = Nat.min 256 (300 - i * 256) ∧ (0 < length b)%nat ∧
               (S i < length bs → length b = 256)%nat.
Proof. exact (batches_sizes (seq 0 300) 256 ltac:(lia)). Defined.

Lemma make_box_corners_witness :
  ∃ m, make_box unit_box = Ok m ∧
       m !! "north_east_lat" = Some (PInt 1) ∧
       m !! "north_east_lng" = Some (PInt 1) ∧
       m !! "south_west_lat" = Some (PInt 0) ∧
       m !! "south_west_lng" = Some (PInt 0) ∧
       ∀ k, k ∉ box_keys → m !! k = None.
Proof.
  apply (make_box_corners
           [ ("ymin", PInt 0); ("ymax", PInt 1);
             ("xmin", PInt 0); ("xmax", PInt 1) ]
           (PInt 1) (PInt 1) (PInt 0) (PInt 0)); reflexivity.
Defined.

Lemma snow_params_content_witness :
  snow_params (PInt 100) (Some 1625416215000) None ∅ !! "since"
    = Some (PInt 1625416215000) ∧
  snow_params (PInt 100) (Some 1625416215000) None ∅ !! "before" = None.
Proof.
  destruct (snow_params_content (PInt 100) PNone (Some 1625416215000) None ∅
              eq_refl) as (_ & _ & _ & Hsince & Hbefore & _).
  split; [exact Hsince | exact Hbefore].
Defined.

Lemma parse_snow_fields_witness :
  is_Some (Snow.date (row_of (PStr "Ann"))) ∧
  is_Some (dict_lookup observation "location").
Proof.
  destruct (parse_snow_fields (numerals := Sample.numerals)
              (clock := Sample.utc) record (row_of (PStr "Ann"))
              parse_snow_record)
    as (top & obs & actor & reported & Hrec & Hobs & _ & _ & _ & _ & _ & _
        & Hdate & Hloc).
  split; [exact Hdate |].
  injection Hrec as <-. injection Hobs as <-. exact Hloc.
Defined.

Lemma parse_snow_details_not_sized_witness :
  parse_snow (numerals := Sample.numerals) (clock := Sample.utc)
    (record_with ann PNone)
  = Raise TypeError.
Proof.
  apply (parse_snow_details_not_sized
           (numerals := Sample.numerals) (clock := Sample.utc)
           (record_with ann PNone) (PDict ann)
           [ ("_id", PStr "5a1b");
             ("reported_at", PInt 1625416215000);
             ("location", PList [PFloat 10; PFloat 20]);
             ("type", PStr "snow_conditions");
             ("details", PNone) ]
           PNone); try reflexivity; intros; discriminate.
Defined.

Lemma snow_data_one_request_witness :
  ∃ r, (snow_data (numerals := Sample.numerals) (clock := Sample.utc)
          (network := Sample.answering bad_body)
          (PInt 100) None None PNone true []).2 = [] ++ [r] ∧
       url r = BASE_URL ∧ headers r = HEADER ∧
       params r = snow_params (PInt 100) None None ∅.
Proof.
  apply (snow_data_one_request
           (numerals := Sample.numerals) (clock := Sample.utc)
           (network := Sample.answering bad_body)
           (PInt 100) None None PNone true None None ∅ []); reflexivity.
Defined.

Lemma snow_data_rows_witness :
  snow_data (numerals := Sample.numerals) (clock := Sample.utc)
    (network := Sample.answering timeline_body)
    (PInt 100) None None PNone false []
  = (Ok [row_of (PStr "Ann"); bare_row],
     [] ++ [timeline_request (PInt 100) None None ∅]).
Proof.
  apply (snow_data_rows
           (numerals := Sample.numerals) (clock := Sample.utc)
           (network := Sample.answering timeline_body)
           (PInt 100) None None PNone None None ∅ []
           [record; record_with ann (PList [])]
           eq_refl eq_refl eq_refl eq_refl).
  repeat constructor; vm_compute; reflexivity.
Defined.

Lemma snow_data_filter_witness :
  snow_data (numerals := Sample.numerals) (clock := Sample.utc)
    (network := Sample.answering timeline_body)
    (PInt 100) None None PNone true []
  = (Ok [row_of (PStr "Ann")], [timeline_request (PInt 100) None None ∅]).
Proof.
  refine (proj1 (snow_data_filter
                   (numerals := Sample.numerals) (clock := Sample.utc)
                   (network := Sample.answering timeline_body)
                   (PInt 100) None None PNone []
                   [timeline_request (PInt 100) None None ∅]
                   [row_of (PStr "Ann"); bare_row] _)).
  vm_compute. reflexivity.
Defined.

Lemma el_data_answered_witness :
  el_data (printing := Sample.printing) (config := Sample.config)
    (network := Sample.answering elevation_body) two_points []
  = (Ok [elevation_row (PInt 0, PInt 0) (PInt 10);
         elevation_row (PInt 1, PInt 1) (PFloat (41 # 2))],
     [] ++ replicate 1
             (elevation_request (printing := Sample.printing)
                (config := Sample.config) two_points)).
Proof.
  apply (el_data_answered
           (printing := Sample.printing) (config := Sample.config)
           (network := Sample.answering elevation_body)
           two_points
           [ PDict [("elevation", PInt 10)];
             PDict [("elevation", PFloat (41 # 2))] ]
           [PInt 10; PFloat (41 # 2)] []).
  - simpl. lia.
  - intros i Hi. reflexivity.
  - repeat constructor.
Defined.

Lemma el_data_rows_are_points_witness :
  (length [elevation_row (PInt 0, PInt 0) (PInt 10)] <= length two_points)%nat ∧
  map (λ row, (Elevation.lat row, Elevation.long row))
    [elevation_row (PInt 0, PInt 0) (PInt 10)]
  = firstn (length [elevation_row (PInt 0, PInt 0) (PInt 10)]) two_points.
Proof.
  apply (el_data_rows_are_points
           (printing := Sample.printing) (config := Sample.config)
           (network := Sample.answering short_body)
           two_points [elevation_row (PInt 0, PInt 0) (PInt 10)] []
           [elevation_request (printing := Sample.printing)
              (config := Sample.config) two_points]).
  vm_compute. reflexivity.
Defined.


End concrete_more.
